(** * converter/converter.py: data product definitions to OpenAPI documents

    A shallow embedding of [converter.py].  The module builds, for every
    definition file found under a source folder, a FastAPI application with
    one POST route, exports its OpenAPI document, strips the ["_post"] suffix
    from the operation ids and writes the document under the destination
    folder when [DeepDiff(current, new, ignore_order=True)] is not empty.

    Layout of the development:
    - [PyStr]: the [str] and [pathlib] operations the module calls;
    - [Json]: JSON documents, dictionaries as association lists in insertion
      order, and the emptiness test of [DeepDiff(.., ignore_order=True)];
    - [Converter]: [DataProductDefinition], [export_openapi_spec],
      [file_is_untracked] and [convert_data_product_definitions], in a small
      state-and-exception monad over the destination folder and an event log;
    - the properties of the specification, one theorem each. *)

From Stdlib Require Import ZArith String Ascii List Bool Lia Permutation.
From stdpp Require Import base list gmap strings.

Open Scope string_scope.
Open Scope list_scope.

(** ** Python strings and pure paths *)

Module PyStr.

(** Python [str] values are kept as [string], the UTF-8 text of the value;
    slicing goes through the list of characters. *)
Definition chars (s : string) : list ascii := list_ascii_of_string s.
Definition str (l : list ascii) : string := string_of_list_ascii l.

(** [bool(s)]: a string is truthy when it is not empty. *)
Definition truthy (s : string) : bool :=
  match s with EmptyString => false | String _ _ => true end.

(** [bool(o)] for an [Optional[str]]: [None] and [""] are falsy. *)
Definition opt_truthy (o : option string) : bool :=
  match o with None => false | Some s => truthy s end.

(** [s.endswith(suffix)] *)
Definition endswith (s suffix : string) : bool :=
  let l := chars s in
  let m := chars suffix in
  (length m <=? length l)%nat && bool_decide (drop (length l - length m) l = m).

(** [s.startswith(prefix)] *)
Definition startswith (s prefix : string) : bool :=
  let l := chars s in
  let m := chars prefix in
  bool_decide (take (length m) l = m).

(** [s.removesuffix(suffix)]:
    [if suffix and s.endswith(suffix): return s[:-len(suffix)]; return s]. *)
Definition removesuffix (s suffix : string) : string :=
  if truthy suffix && endswith s suffix
  then str (take (length (chars s) - length (chars suffix)) (chars s))
  else s.

(** [l.rfind(c)] on characters: the highest index holding [c], or [-1]. *)
Fixpoint rfind (c : ascii) (l : list ascii) : Z :=
  match l with
  | [] => (-1)%Z
  | x :: l' =>
      let r := rfind c l' in
      if (0 <=? r)%Z then (r + 1)%Z
      else if Ascii.eqb x c then 0%Z else (-1)%Z
  end.

(** [PurePath.suffix] of a final component:
    [i = name.rfind('.'); name[i:] if 0 < i < len(name) - 1 else ''] *)
Definition suffix (name : string) : string :=
  let l := chars name in
  let i := rfind "."%char l in
  if ((0 <? i) && (i <? Z.of_nat (length l) - 1))%Z
  then str (drop (Z.to_nat i) l)
  else "".

(** [PurePath.stem] of a final component:
    [name[:i] if 0 < i < len(name) - 1 else name] *)
Definition stem (name : string) : string :=
  let l := chars name in
  let i := rfind "."%char l in
  if ((0 <? i) && (i <? Z.of_nat (length l) - 1))%Z
  then str (take (Z.to_nat i) l)
  else name.

(** The final component with another suffix, as [PurePath.with_suffix]
    computes it: the new suffix is appended when there is no old one. *)
Definition name_with_suffix (name new : string) : string :=
  let old := suffix name in
  if truthy old
  then str (take (length (chars name) - length (chars old)) (chars name)) +:+ new
  else name +:+ new.

(** A relative pure path is the list of its components. *)
Definition PurePath := list string.

(** [p.with_suffix(new)]; [None] stands for the [ValueError] raised on a path
    with an empty name.  The two suffixes the module passes, [""] and
    [".json"], are valid ones. *)
Definition with_suffix (p : PurePath) (new : string) : option PurePath :=
  match reverse p with
  | [] => None
  | name :: rdirs =>
      if truthy name then Some (reverse rdirs ++ [name_with_suffix name new])
      else None
  end.

(** [p.as_posix()] of a relative path. *)
Definition as_posix (p : PurePath) : string := String.concat "/" p.

End PyStr.

(** ** JSON documents and their comparison *)

Module Json.

(** The values [json.loads] returns and [FastAPI.openapi()] builds.  A [dict]
    keeps its items in insertion order; the numbers are the integers. *)
#[local] Unset Elimination Schemes.
Inductive json : Type :=
| JNull
| JBool (b : bool)
| JInt (n : Z)
| JStr (s : string)
| JList (items : list json)
| JDict (items : list (string * json)).
#[local] Set Elimination Schemes.

(** [d[k]] and [k in d] on the items of a dictionary. *)
Fixpoint dict_get (k : string) (items : list (string * json)) : option json :=
  match items with
  | [] => None
  | (k', v) :: rest => if String.eqb k k' then Some v else dict_get k rest
  end.

(** [d[k] = v]: an existing key keeps its position, a new one goes last. *)
Fixpoint dict_set (k : string) (v : json) (items : list (string * json))
  : list (string * json) :=
  match items with
  | [] => [(k, v)]
  | (k', v') :: rest =>
      if String.eqb k k' then (k, v) :: rest else (k', v') :: dict_set k v rest
  end.

(** The keys of a Python dictionary are pairwise distinct, at every depth. *)
Fixpoint wf (j : json) : bool :=
  match j with
  | JList items => forallb wf items
  | JDict items =>
      bool_decide (NoDup (map fst items)) && forallb (fun kv => wf (snd kv)) items
  | _ => true
  end.

(** [DeepDiff(a, b, ignore_order=True) == {}].

    Values of different types differ.  Two dictionaries differ when a key
    was added or removed or when the values under a common key differ.  With
    [ignore_order=True] (and [report_repetition] left at its default) two
    lists differ only when an item of one has no equal item in the other:
    neither the order nor the number of repetitions is reported. *)
Fixpoint no_diff (a b : json) : bool :=
  match a, b with
  | JNull, JNull => true
  | JBool x, JBool y => Bool.eqb x y
  | JInt x, JInt y => Z.eqb x y
  | JStr x, JStr y => String.eqb x y
  | JList xs, JList ys =>
      forallb (fun x => existsb (fun y => no_diff x y) ys) xs
      && forallb (fun y => existsb (fun x => no_diff x y) xs) ys
  | JDict xs, JDict ys =>
      forallb (fun kv => match dict_get (fst kv) ys with
                         | Some v' => no_diff (snd kv) v'
                         | None => false
                         end) xs
      && forallb (fun kv => match dict_get (fst kv) xs with
                            | Some _ => true
                            | None => false
                            end) ys
  | _, _ => false
  end.

(** Two documents that differ only in the order of the keys of their
    dictionaries: the items of a dictionary may be permuted, at any depth,
    and nothing else changes. *)
#[local] Unset Elimination Schemes.
Inductive key_reorder : json -> json -> Prop :=
| KR_same j : key_reorder j j
| KR_list xs ys :
    Forall2 key_reorder xs ys -> key_reorder (JList xs) (JList ys)
| KR_dict xs zs ys :
    Forall2 (fun x z => fst x = fst z /\ key_reorder (snd x) (snd z)) xs zs ->
    Permutation zs ys ->
    key_reorder (JDict xs) (JDict ys).
#[local] Set Elimination Schemes.

(** Two lists, or two dictionaries. *)
Definition same_container (a b : json) : bool :=
  match a, b with
  | JList _, JList _ => true
  | JDict _, JDict _ => true
  | _, _ => false
  end.

(** A change of a key or of a value that the comparison reports: a scalar
    or a type that changed, a key that was added or removed, a value that
    changed under a key, a list item that has no counterpart. *)
Inductive differ : json -> json -> Prop :=
| Ch_value a b :
    same_container a b = false -> a <> b -> differ a b
| Ch_key_removed xs ys k v :
    dict_get k xs = Some v -> dict_get k ys = None ->
    differ (JDict xs) (JDict ys)
| Ch_key_added xs ys k v :
    dict_get k xs = None -> dict_get k ys = Some v ->
    differ (JDict xs) (JDict ys)
| Ch_under_key xs ys k v v' :
    dict_get k xs = Some v -> dict_get k ys = Some v' -> differ v v' ->
    differ (JDict xs) (JDict ys)
| Ch_item_removed xs ys x :
    In x xs -> (forall y, In y ys -> differ x y) ->
    differ (JList xs) (JList ys)
| Ch_item_added xs ys y :
    In y ys -> (forall x, In x xs -> differ x y) ->
    differ (JList xs) (JList ys).

End Json.

(** ** The converter *)

Module Converter.
Import PyStr Json.

(** *** [DataProductDefinition] *)

(** A [Type[BaseModel]]: the module hands the class to FastAPI and never
    looks inside; the class is kept by its name and its JSON schema. *)
Record BaseModel := {
  model_name : string;
  model_schema : json;
}.

Record DataProductDefinition := {
  description : option string;
  name : option string;
  request : BaseModel;
  response : BaseModel;
  route_description : option string;
  route_summary : option string;
  summary : string;
  requires_authorization : bool;
  requires_consent : bool;
}.

Definition set_description (v : option string) (d : DataProductDefinition) :=
  {| description := v; name := name d; request := request d;
     response := response d; route_description := route_description d;
     route_summary := route_summary d; summary := summary d;
     requires_authorization := requires_authorization d;
     requires_consent := requires_consent d |}.

Definition set_name (v : option string) (d : DataProductDefinition) :=
  {| description := description d; name := v; request := request d;
     response := response d; route_description := route_description d;
     route_summary := route_summary d; summary := summary d;
     requires_authorization := requires_authorization d;
     requires_consent := requires_consent d |}.

Definition set_route_description (v : option string) (d : DataProductDefinition) :=
  {| description := description d; name := name d; request := request d;
     response := response d; route_description := v;
     route_summary := route_summary d; summary := summary d;
     requires_authorization := requires_authorization d;
     requires_consent := requires_consent d |}.

Definition set_route_summary (v : option string) (d : DataProductDefinition) :=
  {| description := description d; name := name d; request := request d;
     response := response d; route_description := route_description d;
     route_summary := v; summary := summary d;
     requires_authorization := requires_authorization d;
     requires_consent := requires_consent d |}.

(** [DataProductDefinition.__init__]: [fields] is the instance as the call
    of [BaseModel.__init__] on the keyword arguments leaves it (an
    [Optional] field that was not passed is [None], the flags default to
    [False]).

    [if self.summary:
       if not self.route_description: self.route_description = self.summary
       if not self.description: self.description = self.summary] *)
Definition __init__ (fields : DataProductDefinition) : DataProductDefinition :=
  let self := fields in
  if truthy (summary self) then
    let self :=
      if negb (opt_truthy (route_description self))
      then set_route_description (Some (summary self)) self else self in
    let self :=
      if negb (opt_truthy (description self))
      then set_description (Some (summary self)) self else self in
    self
  else self.

(** *** The FastAPI application [export_openapi_spec] builds *)

(** The annotation of a header parameter: [str] or [Optional[str]]. *)
Inductive annotation := Ann_str | Ann_Optional_str.

(** The default handed to [Header]: [...] (a required parameter) or [None]. *)
Inductive default_value := Ellipsis | DefaultNone.

(** [name: annotation = Header(default, description=...)] *)
Record header_param := {
  param_name : string;
  param_annotation : annotation;
  param_default : default_value;
  param_description : string;
}.

(** The route [@app.post(path, summary=, description=, response_model=)]
    over the endpoint [def request(params: body, *headers)]. *)
Record route := {
  route_path : string;
  route_sum : option string;
  route_desc : option string;
  response_model : BaseModel;
  endpoint_name : string;
  body_model : BaseModel;
  header_params : list header_param;
}.

Record FastAPI := {
  title : string;
  app_description : option string;
  version : string;
  routes : list route;
}.

(** *** Exceptions and the outside world *)

Inductive exn :=
| RuntimeError_import (p : PurePath)       (* "Failed to import {p} module" *)
| AttributeError_module (p : PurePath) (attr : string)
                                           (* [getattr(module, attr)] *)
| ValueError_DEFINITION (p : PurePath)     (* "Error finding DEFINITION variable in {p}" *)
| ValueError_empty_name (p : PurePath)     (* [with_suffix] on an empty name *)
| KeyError (key : string)                  (* [d[key]] *)
| TypeError                                (* subscript of a value that is no [dict] *)
| AttributeError (attr : string)           (* method of another type *)
| CalledProcessError (file : PurePath).    (* [git status] with [check=True] *)

Inductive result (A : Type) :=
| Ok (a : A)
| Raise (e : exn).
Arguments Ok {A} a.
Arguments Raise {A} e.

(** The collaborators the module calls and does not define:
    [FastAPI.openapi] and [git status --short file] ([None] when [git]
    exits with an error, its standard output otherwise). *)
Record env := {
  app_openapi : FastAPI -> json;
  git_status_short : PurePath -> option string;
}.

Inductive message := Exporting | Untracked | Skipping.

(** What a run does to the outside, in order. *)
Inductive event :=
| Stdout (m : message) (file : PurePath)
| Mkdir (dir : PurePath)
| WriteText (file : PurePath) (doc : json)
| PreCommit (file : PurePath)
| GitStatus (file : PurePath).

(** The destination folder and the events so far, the oldest first.  A
    file is kept by its path relative to [dest] and by the value
    [json.loads] returns for its text; writing [json.dumps(doc) + "\n"]
    stores [doc].  A formatting hook leaves that value as it is. *)
Record world := {
  files : gmap PurePath json;
  log : list event;
}.

(** Computations that read and write the world and may raise; the world a
    raising computation leaves behind is kept. *)
Definition M (A : Type) : Type := world -> result A * world.

Definition ret {A} (a : A) : M A := fun w => (Ok a, w).
Definition raise {A} (e : exn) : M A := fun w => (Raise e, w).
Definition bind {A B} (m : M A) (k : A -> M B) : M B :=
  fun w => match m w with
           | (Ok a, w') => k a w'
           | (Raise e, w') => (Raise e, w')
           end.
Definition lift {A} (r : result A) : M A := fun w => (r, w).
Definition emit (e : event) : M unit :=
  fun w => (Ok tt, {| files := files w; log := log w ++ [e] |}).
Definition read_file (file : PurePath) : M (option json) :=
  fun w => (Ok (files w !! file), w).
Definition write_file (file : PurePath) (doc : json) : M unit :=
  fun w => (Ok tt, {| files := <[file := doc]> (files w);
                      log := log w ++ [WriteText file doc] |}).

Definition rbind {A B} (r : result A) (k : A -> result B) : result B :=
  match r with Ok a => k a | Raise e => Raise e end.

Declare Scope py_scope.
Delimit Scope py_scope with py.
Notation "'let*' x ':=' m 'in' k" := (bind m (fun x => k))
  (at level 10, x name, m at level 100, k at level 200) : py_scope.
Notation "'let?' x ':=' m 'in' k" := (rbind m (fun x => k))
  (at level 10, x name, m at level 100, k at level 200) : py_scope.
Open Scope py_scope.

(** *** [export_openapi_spec] *)

(** An f-string field holding an [Optional[str]]: [None] prints as ["None"]. *)
Definition fstr (o : option string) : string :=
  match o with Some s => s | None => "None" end.

Definition dquote : string := String "034"%char "".

(** The three header parameters of the endpoint [request] (lines 53-88): the
    type and the default of two of them follow the flags of the definition. *)
Definition request_headers (definition : DataProductDefinition)
  : list header_param :=
  let '(authorization_header_type, authorization_header_default_value) :=
    if requires_authorization definition
    then (Ann_str, Ellipsis)
    else (Ann_Optional_str, DefaultNone) in
  let '(consent_header_type, consent_header_default_value,
        consent_header_description) :=
    if requires_consent definition
    then (Ann_str, Ellipsis, "Consent token")
    else (Ann_Optional_str, DefaultNone, "Optional consent token") in
  [ {| param_name := "x_consent_token";
       param_annotation := consent_header_type;
       param_default := consent_header_default_value;
       param_description := consent_header_description |};
    {| param_name := "authorization";
       param_annotation := authorization_header_type;
       param_default := authorization_header_default_value;
       param_description :=
         "The login token. Value should be " +:+ dquote +:+ "Bearer [token]"
         +:+ dquote |};
    {| param_name := "x_authorization_provider";
       param_annotation := Ann_Optional_str;
       param_default := DefaultNone;
       param_description :=
         "The bare domain of the system that provided the token." |} ].

(** The application of lines 47-89: one POST route at [/{definition.name}]. *)
Definition make_app (definition : DataProductDefinition) : FastAPI :=
  {| title := summary definition;
     app_description := description definition;
     version := "1.0.0";
     routes :=
       [ {| route_path := "/" +:+ fstr (name definition);
            route_sum := route_summary definition;
            route_desc := route_description definition;
            response_model := response definition;
            endpoint_name := "request";
            body_model := request definition;
            header_params := request_headers definition |} ] |}.

(** [j[k]], [j[k] = v], [j.items()] and [j.removesuffix(suffix)] on a value
    that may be of another type. *)
Definition subscript (j : json) (k : string) : result json :=
  match j with
  | JDict items =>
      match dict_get k items with
      | Some v => Ok v
      | None => Raise (KeyError k)
      end
  | _ => Raise TypeError
  end.

Definition setitem (j : json) (k : string) (v : json) : result json :=
  match j with
  | JDict items => Ok (JDict (dict_set k v items))
  | _ => Raise TypeError
  end.

Definition dict_items (j : json) : result (list (string * json)) :=
  match j with
  | JDict items => Ok items
  | _ => Raise (AttributeError "items")
  end.

Definition removesuffix_method (j : json) (suffix : string) : result string :=
  match j with
  | JStr s => Ok (removesuffix s suffix)
  | _ => Raise (AttributeError "removesuffix")
  end.

(** Lines 93-95.  [todo] are the items of [openapi["paths"]] still to visit;
    the assignment of line 95 goes through the document from its root.

    [for path, data in openapi["paths"].items():
       operation_id = data["post"]["operationId"].removesuffix("_post")
       openapi["paths"][path]["post"]["operationId"] = operation_id] *)
Fixpoint strip_loop (todo : list (string * json)) (openapi : json)
  : result json :=
  match todo with
  | [] => Ok openapi
  | (path, data) :: todo' =>
      let? post := subscript data "post" in
      let? raw_id := subscript post "operationId" in
      let? operation_id := removesuffix_method raw_id "_post" in
      let? paths := subscript openapi "paths" in
      let? entry := subscript paths path in
      let? entry_post := subscript entry "post" in
      let? entry_post' := setitem entry_post "operationId" (JStr operation_id) in
      let? entry' := setitem entry "post" entry_post' in
      let? paths' := setitem paths path entry' in
      let? openapi' := setitem openapi "paths" paths' in
      strip_loop todo' openapi'
  end.

Definition export_openapi_spec (E : env) (definition : DataProductDefinition)
  : result json :=
  let app := make_app definition in
  let openapi := app_openapi E app in
  let? paths := subscript openapi "paths" in
  let? items := dict_items paths in
  strip_loop items openapi.

(** *** [file_is_untracked] and [run_pre_commit_hooks_on_file] *)

Definition run_pre_commit_hooks_on_file (file : PurePath) : M unit :=
  emit (PreCommit file).

Definition file_is_untracked (E : env) (file : PurePath) : M bool :=
  let* _ := emit (GitStatus file) in
  match git_status_short E file with
  | Some stdout => ret (startswith stdout "??")
  | None => raise (CalledProcessError file)
  end.

(** *** [convert_data_product_definitions] *)

(** What [getattr(module, "DEFINITION")] finds in a loaded module. *)
Inductive module_attr :=
| Absent
| IsNone
| Instance (definition : DataProductDefinition).

(** A file [p] that [src.glob("**/*.py")] yields: [p.relative_to(src)],
    whether its import spec has a loader, and the [DEFINITION] of the
    module once its code has run. *)
Record source_file := {
  rel : PurePath;
  has_loader : bool;
  DEFINITION : module_attr;
}.

(** Lines 108-119: import the module, fetch [DEFINITION], name it after the
    file and default its route summary. *)
Definition load_definition (p : source_file) : result DataProductDefinition :=
  if negb (has_loader p) then Raise (RuntimeError_import (rel p))
  else
    match DEFINITION p with
    | Absent => Raise (AttributeError_module (rel p) "DEFINITION")
    | IsNone => Raise (ValueError_DEFINITION (rel p))
    | Instance definition =>
        match with_suffix (rel p) "" with
        | None => Raise (ValueError_empty_name (rel p))
        | Some stem =>
            let definition := set_name (Some (as_posix stem)) definition in
            let definition :=
              if negb (opt_truthy (route_summary definition))
              then set_route_summary (name definition) definition
              else definition in
            Ok definition
        end
    end.

(** [out_file.parent] *)
Definition parent (file : PurePath) : PurePath := take (length file - 1) file.

(** Lines 125-145: compare with the file that is there and write, or ask
    [git]; the result is whether [should_fail_hook] was set. *)
Definition publish (E : env) (out_file : PurePath) (openapi : json) : M bool :=
  let* existing := read_file out_file in
  let current_spec :=
    match existing with Some doc => doc | None => JDict [] end in
  if negb (no_diff current_spec openapi) then
    let* _ := emit (Stdout Exporting out_file) in
    let* _ := emit (Mkdir (parent out_file)) in
    let* _ := write_file out_file openapi in
    let* _ := run_pre_commit_hooks_on_file out_file in
    ret true
  else
    let* untracked := file_is_untracked E out_file in
    if untracked then
      let* _ := emit (Stdout Untracked out_file) in
      ret true
    else
      let* _ := emit (Stdout Skipping out_file) in
      ret false.

(** The body of the loop, lines 108-145. *)
Definition convert_file (E : env) (p : source_file) : M bool :=
  let* definition := lift (load_definition p) in
  let* openapi := lift (export_openapi_spec E definition) in
  let* out_file := lift (match with_suffix (rel p) ".json" with
                       | Some f => Ok f
                       | None => Raise (ValueError_empty_name (rel p))
                       end) in
  publish E out_file openapi.

Fixpoint convert_loop (E : env) (ps : list source_file)
    (should_fail_hook : bool) : M bool :=
  match ps with
  | [] => ret should_fail_hook
  | p :: ps' =>
      let* changed := convert_file E p in
      convert_loop E ps' (should_fail_hook || changed)
  end.

(** [glob] lists the files of [src.glob("**/*.py")] in the order the
    iterator yields them. *)
Definition convert_data_product_definitions (E : env)
    (glob : list source_file) : M bool :=
  convert_loop E glob false.

(** *** Views of documents and runs that the statements use *)

(** [data["post"]["operationId"]] when it is a string. *)
Definition operation_id (data : json) : result string :=
  let? post := subscript data "post" in
  let? raw_id := subscript post "operationId" in
  match raw_id with
  | JStr s => Ok s
  | _ => Raise (AttributeError "removesuffix")
  end.

(** One entry of [paths] with the suffix taken off its operation id. *)
Definition strip_entry (data : json) : result json :=
  let? post := subscript data "post" in
  let? raw_id := subscript post "operationId" in
  let? operation_id := removesuffix_method raw_id "_post" in
  let? post' := setitem post "operationId" (JStr operation_id) in
  setitem data "post" post'.

Fixpoint strip_entries (items : list (string * json))
  : result (list (string * json)) :=
  match items with
  | [] => Ok []
  | (path, data) :: rest =>
      let? data' := strip_entry data in
      let? rest' := strip_entries rest in
      Ok ((path, data') :: rest')
  end.

(** The flags of the files of a run, one by one. *)
Fixpoint convert_files (E : env) (ps : list source_file) : M (list bool) :=
  match ps with
  | [] => ret []
  | p :: ps' =>
      let* changed := convert_file E p in
      let* rest := convert_files E ps' in
      ret (changed :: rest)
  end.

(** The events that tell of a document written or of a file found
    untracked: a write, and a [git status] whose output starts with ["??"]. *)
Definition signals_change (E : env) (e : event) : bool :=
  match e with
  | WriteText _ _ => true
  | GitStatus file =>
      match git_status_short E file with
      | Some stdout => startswith stdout "??"
      | None => false
      end
  | _ => false
  end.

Definition is_write (e : event) : bool :=
  match e with WriteText _ _ => true | _ => false end.

(** The document a run finds at [out_file]: [{}] when there is no file. *)
Definition current_spec (w : world) (out_file : PurePath) : json :=
  match files w !! out_file with Some doc => doc | None => JDict [] end.

(** The world after the four steps of the writing branch, lines 131-137. *)
Definition written (w : world) (out_file : PurePath) (openapi : json) : world :=
  {| files := <[out_file := openapi]> (files w);
     log := log w ++ [ Stdout Exporting out_file; Mkdir (parent out_file);
                       WriteText out_file openapi; PreCommit out_file ] |}.

(** The world after the other branch, lines 141-145, when [git] answers. *)
Definition asked (w : world) (out_file : PurePath) (untracked : bool) : world :=
  {| files := files w;
     log := log w ++ [ GitStatus out_file;
                       Stdout (if untracked then Untracked else Skipping)
                              out_file ] |}.

End Converter.

(** ** A reference engine

    The theorems below hold for every [app_openapi].  To run the converter
    on concrete definitions this module gives one engine, in the layout of
    the documents of FastAPI reduced to the parts the converter meets:
    [info], one entry of [paths] per route with the operation under
    ["post"], the operation id [{endpoint}{path}_post] with every character
    that is no letter, digit or underscore replaced by an underscore, and
    the schemas of the models under [components]. *)

Module Reference.
Import PyStr Json Converter.

Definition is_word (c : ascii) : bool :=
  let n := nat_of_ascii c in
  ((48 <=? n)%nat && (n <=? 57)%nat) || ((65 <=? n)%nat && (n <=? 90)%nat)
  || ((97 <=? n)%nat && (n <=? 122)%nat) || (n =? 95)%nat || (128 <=? n)%nat.

(** [re.sub(r"\W", "_", s)] *)
Definition sub_nonword (s : string) : string :=
  str (map (fun c => if is_word c then c else "_"%char) (chars s)).

Definition generate_unique_id (r : route) : string :=
  sub_nonword (endpoint_name r +:+ route_path r) +:+ "_post".

(** The name a header parameter has on the wire: underscores become
    hyphens. *)
Definition alias (n : string) : string :=
  str (map (fun c => if Ascii.eqb c "_"%char then "-"%char else c) (chars n)).

(** [s.title()] on ASCII letters: a letter that follows no letter is put in
    upper case, every other letter in lower case. *)
Fixpoint title_chars (after_letter : bool) (l : list ascii) : list ascii :=
  match l with
  | [] => []
  | c :: l' =>
      let n := nat_of_ascii c in
      if ((97 <=? n)%nat && (n <=? 122)%nat) then
        (if after_letter then c else ascii_of_nat (n - 32))
          :: title_chars true l'
      else if ((65 <=? n)%nat && (n <=? 90)%nat) then
        (if after_letter then ascii_of_nat (n + 32) else c)
          :: title_chars true l'
      else c :: title_chars false l'
  end.

Definition title_case (s : string) : string :=
  str (title_chars false (chars s)).

Definition parameter (h : header_param) : json :=
  JDict [ ("description", JStr (param_description h));
          ("required", JBool match param_default h with
                             | Ellipsis => true
                             | DefaultNone => false
                             end);
          ("schema", JDict [ ("title",
                              JStr (title_case (alias (param_name h))));
                             ("type", JStr "string");
                             ("description", JStr (param_description h)) ]);
          ("name", JStr (alias (param_name h)));
          ("in", JStr "header") ].

Definition ref_to (m : BaseModel) : json :=
  JDict [ ("$ref", JStr ("#/components/schemas/" +:+ model_name m)) ].

Definition content_of (m : BaseModel) : json :=
  JDict [ ("application/json", JDict [ ("schema", ref_to m) ]) ].

Definition opt_field (k : string) (o : option string) : list (string * json) :=
  match o with
  | Some s => if truthy s then [ (k, JStr s) ] else []
  | None => []
  end.

Definition operation (r : route) : json :=
  JDict (opt_field "summary" (route_sum r)
         ++ opt_field "description" (route_desc r)
         ++ [ ("operationId", JStr (generate_unique_id r));
              ("parameters", JList (map parameter (header_params r)));
              ("requestBody", JDict [ ("content", content_of (body_model r));
                                      ("required", JBool true) ]);
              ("responses",
               JDict [ ("200", JDict [ ("description",
                                        JStr "Successful Response");
                                       ("content",
                                        content_of (response_model r)) ]) ])
            ]).

Definition openapi (app : FastAPI) : json :=
  JDict [ ("openapi", JStr "3.0.2");
          ("info", JDict ([ ("title", JStr (title app)) ]
                          ++ opt_field "description" (app_description app)
                          ++ [ ("version", JStr (version app)) ]));
          ("paths",
           JDict (fold_left
                    (fun acc r =>
                       dict_set (route_path r)
                                (JDict [ ("post", operation r) ]) acc)
                    (routes app) []));
          ("components",
           JDict [ ("schemas",
                    JDict (fold_left
                             (fun acc r =>
                                dict_set (model_name (response_model r))
                                         (model_schema (response_model r))
                                  (dict_set (model_name (body_model r))
                                            (model_schema (body_model r)) acc))
                             (routes app) [])) ]) ].

(** A work tree in which [git] knows the files of [tracked] and no other. *)
Definition git_of (tracked : list PurePath) (file : PurePath) : option string :=
  if bool_decide (file ∈ tracked) then Some "" else
    Some ("?? " +:+ as_posix file).

Definition engine (tracked : list PurePath) : env :=
  {| app_openapi := openapi; git_status_short := git_of tracked |}.

End Reference.

(** ** Sample definitions *)

Module Samples.
Import PyStr Json Converter.

Definition object_schema (title_ : string) : json :=
  JDict [ ("title", JStr title_); ("type", JStr "object");
          ("properties", JDict []) ].

Definition Request : BaseModel :=
  {| model_name := "Request"; model_schema := object_schema "Request" |}.
Definition Response : BaseModel :=
  {| model_name := "Response"; model_schema := object_schema "Response" |}.

(** [DataProductDefinition(summary="Foo", request=Request, response=Response)] *)
Definition only_summary : DataProductDefinition :=
  {| description := None; name := None; request := Request;
     response := Response; route_description := None; route_summary := None;
     summary := "Foo"; requires_authorization := false;
     requires_consent := false |}.

(** The same with [requires_consent=True]. *)
Definition with_consent : DataProductDefinition :=
  {| description := None; name := None; request := Request;
     response := Response; route_description := None; route_summary := None;
     summary := "Foo"; requires_authorization := false;
     requires_consent := true |}.

(** [orders/create.py] holds [DEFINITION = only_summary]. *)
Definition orders_create : source_file :=
  {| rel := ["orders"; "create.py"]; has_loader := true;
     DEFINITION := Instance (__init__ only_summary) |}.

Definition weather : source_file :=
  {| rel := ["weather.py"]; has_loader := true;
     DEFINITION := Instance (__init__ with_consent) |}.

(** A module without a [DEFINITION], and one with [DEFINITION = None]. *)
Definition no_definition : source_file :=
  {| rel := ["broken.py"]; has_loader := true; DEFINITION := Absent |}.
Definition none_definition : source_file :=
  {| rel := ["empty.py"]; has_loader := true; DEFINITION := IsNone |}.

Definition empty_world : world := {| files := ∅; log := [] |}.

(** The document the reference engine gives for [weather.py], and a
    destination folder that holds it. *)
Definition weather_doc : json :=
  match load_definition weather with
  | Ok definition =>
      match export_openapi_spec (Reference.engine []) definition with
      | Ok doc => doc
      | Raise _ => JNull
      end
  | Raise _ => JNull
  end.

Definition weather_definition : DataProductDefinition :=
  match load_definition weather with
  | Ok definition => definition
  | Raise _ => __init__ with_consent
  end.

(** The document of the reference engine before the loop of lines 93-95,
    its items and the items of its [paths]. *)
Definition weather_top : list (string * json) :=
  match Reference.openapi (make_app weather_definition) with
  | JDict top => top
  | _ => []
  end.

Definition weather_paths : list (string * json) :=
  match dict_get "paths" weather_top with
  | Some (JDict items) => items
  | _ => []
  end.

Definition published_world : world :=
  {| files := {[ ["weather.json"] := weather_doc ]}; log := [] |}.

(** The world after a run over [orders/create.py] alone from an empty
    folder, and after a run over both files from [published_world] with
    [weather.json] tracked. *)
Definition first_run : world :=
  snd (convert_data_product_definitions (Reference.engine [])
         [orders_create] empty_world).

Definition second_run : world :=
  snd (convert_data_product_definitions (Reference.engine [["weather.json"]])
         [orders_create; weather] published_world).

(** Two documents with the same items under keys in another order. *)
Definition ab : json := JDict [ ("a", JInt 1); ("b", JInt 2) ].
Definition ba : json := JDict [ ("b", JInt 2); ("a", JInt 1) ].

Definition ab_world : world :=
  {| files := {[ ["ab.json"] := ab ]}; log := [] |}.

(** Two documents whose lists hold the same items, one of them repeated. *)
Definition aab : json :=
  JDict [ ("required", JList [ JStr "a"; JStr "a"; JStr "b" ]) ].
Definition abb : json :=
  JDict [ ("required", JList [ JStr "a"; JStr "b"; JStr "b" ]) ].

(** A definition with an explicit empty description. *)
Definition empty_description : DataProductDefinition :=
  {| description := Some ""; name := None; request := Request;
     response := Response; route_description := Some "Bar";
     route_summary := None; summary := "Foo";
     requires_authorization := false; requires_consent := false |}.

End Samples.

(** ** More sample inputs *)

Module MoreSamples.
Import PyStr Json Converter.

(** [orders/create.py] once loaded. *)
Definition loaded_orders_create : DataProductDefinition :=
  match load_definition Samples.orders_create with
  | Ok definition => definition
  | Raise _ => Samples.only_summary
  end.

(** An engine that gives the same document for every application, and a
    [git] that fails. *)
Definition constant_engine (doc : json) : env :=
  {| app_openapi := fun _ => doc; git_status_short := fun _ => None |}.

(** A document whose operation id carries no suffix, and one whose only
    path has a [get] operation and no [post]. *)
Definition plain_doc : json :=
  JDict [ ("openapi", JStr "3.0.2");
          ("paths",
           JDict [ ("/x", JDict [ ("post",
                                   JDict [ ("operationId", JStr "read_x");
                                           ("summary", JStr "x") ]) ]) ]) ].

Definition get_only_doc : json :=
  JDict [ ("openapi", JStr "3.0.2");
          ("paths",
           JDict [ ("/x", JDict [ ("get",
                                   JDict [ ("operationId",
                                            JStr "read_x_get") ]) ]) ]) ].

(** The reference engine in a folder where [git] fails, and the world
    after it exported [orders/create.py] beside the [weather.json] that
    was there. *)
Definition no_git : env :=
  {| app_openapi := Reference.openapi; git_status_short := fun _ => None |}.

Definition after_orders : world :=
  snd (convert_data_product_definitions no_git [Samples.orders_create]
         Samples.published_world).

(** The world after a run over both files from an empty folder, and what a
    second run from there gives. *)
Definition both_exported : world :=
  snd (convert_data_product_definitions (Reference.engine [])
         [Samples.orders_create; Samples.weather] Samples.empty_world).

Definition again : result bool * world :=
  convert_data_product_definitions (Reference.engine [])
    [Samples.orders_create; Samples.weather] both_exported.

End MoreSamples.

(** ** Runs seen from the outside *)

Module Runs.
Import PyStr Json Converter.

(** Line 123: the file a source file is exported to, relative to [dest]. *)
Definition out_file_of (p : source_file) : option PurePath :=
  with_suffix (rel p) ".json".

(** Lines 108-121: the document synthesized for a source file. *)
Definition document_of (E : env) (p : source_file) : result json :=
  let? definition := load_definition p in
  export_openapi_spec E definition.

(** The files of the destination after the writes among [evs], in order. *)
Definition replay (evs : list event) (fs : gmap PurePath json)
  : gmap PurePath json :=
  fold_left (fun fs e => match e with
                         | WriteText file doc => <[file := doc]> fs
                         | _ => fs
                         end) evs fs.

(** The events one file adds: none when it raises before line 125, the four
    of the writing branch, or the query of [git] with the message that
    follows its answer (no message when [git] fails). *)
Inductive step_events : list event -> Prop :=
| SE_raised : step_events []
| SE_written file doc :
    step_events [ Stdout Exporting file; Mkdir (parent file);
                  WriteText file doc; PreCommit file ]
| SE_asked file (untracked : bool) :
    step_events [ GitStatus file;
                  Stdout (if untracked then Untracked else Skipping) file ]
| SE_git_failed file : step_events [ GitStatus file ].

Inductive run_events : list event -> Prop :=
| RE_done : run_events []
| RE_step evs rest :
    step_events evs -> run_events rest -> run_events (evs ++ rest).

(** The document of [p] shows no difference with the file that is there. *)
Definition up_to_date (E : env) (w : world) (p : source_file) : bool :=
  match document_of E p, out_file_of p with
  | Ok doc, Some out_file => no_diff (current_spec w out_file) doc
  | _, _ => true
  end.

(** The keys of the document of [p] are distinct, as those of a [dict]. *)
Definition document_wf (E : env) (p : source_file) : bool :=
  match document_of E p with
  | Ok doc => wf doc
  | Raise _ => true
  end.

(** [file_is_untracked] answers [True] for the file of [p]. *)
Definition untracked_file (E : env) (p : source_file) : bool :=
  match out_file_of p with
  | Some out_file =>
      match git_status_short E out_file with
      | Some stdout => startswith stdout "??"
      | None => false
      end
  | None => false
  end.

(** Two dictionaries with the same keys in the same order and the same
    values under every key but [k]. *)
Definition same_except (k : string) (a b : json) : Prop :=
  match a, b with
  | JDict xs, JDict ys =>
      map fst ys = map fst xs
      /\ forall k', k' <> k -> dict_get k' ys = dict_get k' xs
  | _, _ => False
  end.

(** [doc["paths"][path]["post"]["parameters"]]: the parameters the
    operation at [path] declares in a document. *)
Definition operation_parameters (doc : json) (path : string) : result json :=
  let? paths := subscript doc "paths" in
  let? entry := subscript paths path in
  let? post := subscript entry "post" in
  subscript post "parameters".

(** What a parameter object says: its [name], [in], [required] and
    [description], and the [type] and the [default] of its [schema]. *)
Definition header_view (item : json)
  : result json * result json * result json * result json
    * result json * result json :=
  (subscript item "name", subscript item "in", subscript item "required",
   subscript item "description",
   (let? schema := subscript item "schema" in subscript schema "type"),
   (let? schema := subscript item "schema" in subscript schema "default")).

(** The events of a run over [ps], file by file in the order of [ps];
    [returned] tells whether the run returned.  A file that is published
    adds the four events of a write of its document at its destination, or
    the query of [git] about its destination and the message of the
    answer.  A file that raises ends the log: with nothing when it raises
    before line 125, with the query alone when [git] fails. *)
Inductive run_trace (E : env) : list source_file -> bool -> list event -> Prop :=
| RT_done : run_trace E [] true []
| RT_written p ps returned out_file doc rest :
    out_file_of p = Some out_file ->
    document_of E p = Ok doc ->
    run_trace E ps returned rest ->
    run_trace E (p :: ps) returned
      ([ Stdout Exporting out_file; Mkdir (parent out_file);
         WriteText out_file doc; PreCommit out_file ] ++ rest)
| RT_asked p ps returned out_file stdout rest :
    out_file_of p = Some out_file ->
    git_status_short E out_file = Some stdout ->
    run_trace E ps returned rest ->
    run_trace E (p :: ps) returned
      ([ GitStatus out_file;
         Stdout (if startswith stdout "??" then Untracked else Skipping)
                out_file ] ++ rest)
| RT_git_failed p ps out_file :
    out_file_of p = Some out_file ->
    git_status_short E out_file = None ->
    run_trace E (p :: ps) false [ GitStatus out_file ]
| RT_raised p ps :
    run_trace E (p :: ps) false [].

End Runs.

(** ** Facts about strings and paths *)

Section PyStrFacts.
Import PyStr.

Lemma chars_app (a b : string) : chars (a +:+ b) = chars a ++ chars b.
Proof. induction a as [|c a IH]; simpl; [done | by rewrite IH]. Qed.

Lemma str_chars (s : string) : str (chars s) = s.
Proof. apply string_of_list_ascii_of_string. Qed.

Lemma chars_str (l : list ascii) : chars (str l) = l.
Proof. apply list_ascii_of_string_of_list_ascii. Qed.

Lemma chars_inj (a b : string) : chars a = chars b -> a = b.
Proof. intros H. rewrite <- (str_chars a), <- (str_chars b). by rewrite H. Qed.

Lemma truthy_true (s : string) : truthy s = true <-> s <> "".
Proof. destruct s; simpl; split; intros; congruence. Qed.

Lemma truthy_false (s : string) : truthy s = false <-> s = "".
Proof. destruct s; simpl; split; intros; congruence. Qed.

Lemma chars_nil (s : string) : chars s = [] <-> s = "".
Proof. destruct s; simpl; split; intros; congruence. Qed.

Lemma endswith_spec (s suffix : string) :
  endswith s suffix = true <-> exists r, s = r +:+ suffix.
Proof.
  unfold endswith. rewrite andb_true_iff, Nat.leb_le, bool_decide_eq_true.
  split.
  - intros [Hlen Hdrop].
    exists (str (take (length (chars s) - length (chars suffix)) (chars s))).
    apply chars_inj. rewrite chars_app, chars_str.
    etrans; [symmetry; apply (take_drop (length (chars s) - length (chars suffix))) |].
    by rewrite Hdrop.
  - intros [r ->]. rewrite chars_app, length_app. split; [lia |].
    replace (length (chars r) + length (chars suffix) - length (chars suffix))
      with (length (chars r)) by lia.
    by rewrite drop_app_length.
Qed.

(** [removesuffix] takes one copy of a non-empty suffix off the end. *)
Lemma removesuffix_app (r suffix : string) :
  suffix <> "" -> removesuffix (r +:+ suffix) suffix = r.
Proof.
  intros Hne. unfold removesuffix.
  apply truthy_true in Hne. rewrite Hne. simpl.
  assert (endswith (r +:+ suffix) suffix = true) as ->
    by (apply endswith_spec; eauto).
  rewrite chars_app, length_app.
  replace (length (chars r) + length (chars suffix) - length (chars suffix))
    with (length (chars r)) by lia.
  by rewrite take_app_length, str_chars.
Qed.

(** ... and leaves every other string as it is. *)
Lemma removesuffix_other (s suffix : string) :
  endswith s suffix = false -> removesuffix s suffix = s.
Proof. intros H. unfold removesuffix. by rewrite H, andb_false_r. Qed.

Lemma rfind_absent (c : ascii) (l : list ascii) :
  c ∉ l -> rfind c l = (-1)%Z.
Proof.
  induction l as [|x l IH]; [done |]. intros Hin.
  apply not_elem_of_cons in Hin as [Hne Hin]. simpl. rewrite (IH Hin). simpl.
  destruct (Ascii.eqb_spec x c); congruence.
Qed.

Lemma rfind_last (c : ascii) (l m : list ascii) :
  c ∉ m -> rfind c (l ++ c :: m) = Z.of_nat (length l).
Proof.
  intros Hin. induction l as [|x l IH]; simpl.
  - rewrite (rfind_absent _ _ Hin). simpl. by rewrite Ascii.eqb_refl.
  - rewrite IH. destruct (Z.leb_spec 0 (Z.of_nat (length l))); lia.
Qed.

(** The suffix of [stem.ext] is [.ext] when neither part is empty and [ext]
    holds no dot. *)
Lemma suffix_stem_ext (stem ext : string) :
  stem <> "" -> ext <> "" -> "."%char ∉ chars ext ->
  suffix (stem +:+ "." +:+ ext) = "." +:+ ext.
Proof.
  intros Hs He Hdot. unfold suffix.
  rewrite !chars_app. simpl.
  rewrite rfind_last by done.
  rewrite length_app. simpl.
  assert (0 < length (chars stem)).
  { destruct (chars stem) eqn:Hc; [by apply chars_nil in Hc | simpl; lia]. }
  assert (0 < length (chars ext)).
  { destruct (chars ext) eqn:Hc; [by apply chars_nil in Hc | simpl; lia]. }
  destruct (Z.ltb_spec 0 (Z.of_nat (length (chars stem)))); [| lia].
  destruct (Z.ltb_spec (Z.of_nat (length (chars stem)))
              (Z.of_nat (length (chars stem) + S (length (chars ext))) - 1));
    [| lia].
  simpl. rewrite Nat2Z.id, drop_app_length.
  apply chars_inj. by rewrite chars_str.
Qed.

Lemma name_with_suffix_stem_ext (stem ext new : string) :
  stem <> "" -> ext <> "" -> "."%char ∉ chars ext ->
  name_with_suffix (stem +:+ "." +:+ ext) new = stem +:+ new.
Proof.
  intros Hs He Hdot. unfold name_with_suffix.
  rewrite suffix_stem_ext by done. simpl.
  rewrite !chars_app. simpl. rewrite length_app. simpl.
  replace (length (chars stem) + S (length (chars ext)) - S (length (chars ext)))
    with (length (chars stem)) by lia.
  by rewrite take_app_length, str_chars.
Qed.

Lemma rfind_lt (c : ascii) (l : list ascii) :
  (rfind c l < Z.of_nat (length l))%Z.
Proof.
  induction l as [|x l IH]; simpl length; simpl rfind; [lia |].
  destruct (Z.leb_spec 0 (rfind c l)); [lia |].
  destruct (Ascii.eqb x c); lia.
Qed.

(** Replacing the suffix by nothing leaves the stem. *)
Lemma name_with_suffix_empty (name : string) :
  name_with_suffix name "" = stem name.
Proof.
  unfold name_with_suffix, suffix, stem.
  pose proof (rfind_lt "."%char (chars name)) as Hlt.
  set (l := chars name) in *. set (i := rfind "."%char l) in *.
  destruct ((0 <? i)%Z && (i <? Z.of_nat (length l) - 1)%Z) eqn:Hc.
  - apply andb_true_iff in Hc as [H0 H1].
    apply Z.ltb_lt in H0, H1.
    assert (length (drop (Z.to_nat i) l) = length l - Z.to_nat i) as Hlen
      by apply length_drop.
    assert (truthy (str (drop (Z.to_nat i) l)) = true) as ->.
    { apply truthy_true. intros Heq. apply (f_equal chars) in Heq.
      rewrite chars_str in Heq. simpl in Heq. rewrite Heq in Hlen.
      simpl in Hlen. lia. }
    rewrite chars_str, Hlen.
    replace (length l - (length l - Z.to_nat i)) with (Z.to_nat i) by lia.
    apply chars_inj. rewrite chars_app. simpl. apply app_nil_r.
  - simpl. apply chars_inj. rewrite chars_app. simpl. apply app_nil_r.
Qed.

Lemma stem_stem_ext (s ext : string) :
  s <> "" -> ext <> "" -> "."%char ∉ chars ext ->
  stem (s +:+ "." +:+ ext) = s.
Proof.
  intros Hs He Hdot. rewrite <- name_with_suffix_empty.
  rewrite name_with_suffix_stem_ext by done.
  apply chars_inj. rewrite chars_app. simpl. apply app_nil_r.
Qed.

Lemma with_suffix_last (dirs : list string) (file new : string) :
  file <> "" ->
  with_suffix (dirs ++ [file]) new = Some (dirs ++ [name_with_suffix file new]).
Proof.
  intros Hne. unfold with_suffix. rewrite reverse_app. simpl.
  apply truthy_true in Hne. rewrite Hne. by rewrite reverse_involutive.
Qed.

End PyStrFacts.

(** ** Facts about documents and their comparison *)

Section JsonFacts.
Import Json.

(** Induction on a document reaches the items of lists and dictionaries. *)
Lemma json_ind (P : json -> Prop)
    (Hnull : P JNull) (Hbool : forall b, P (JBool b))
    (Hint : forall n, P (JInt n)) (Hstr : forall s, P (JStr s))
    (Hlist : forall items, Forall P items -> P (JList items))
    (Hdict : forall items, Forall (fun kv => P (snd kv)) items -> P (JDict items)) :
  forall j, P j.
Proof.
  fix IH 1. intros [| b | n | s | items | items].
  - exact Hnull.
  - apply Hbool.
  - apply Hint.
  - apply Hstr.
  - apply Hlist. induction items as [|x items IHitems]; constructor.
    + apply IH.
    + exact IHitems.
  - apply Hdict. induction items as [|[k v] items IHitems]; constructor.
    + apply IH.
    + exact IHitems.
Qed.

Lemma forallb_false {A} (f : A -> bool) (l : list A) :
  forallb f l = false <-> exists x, In x l /\ f x = false.
Proof.
  induction l as [|a l IH]; simpl.
  - split; [discriminate | intros (? & [] & _)].
  - rewrite andb_false_iff, IH. split.
    + intros [H | (x & Hin & Hx)]; eauto.
    + intros (x & [-> | Hin] & Hx); eauto.
Qed.

Lemma existsb_false {A} (f : A -> bool) (l : list A) :
  existsb f l = false <-> forall x, In x l -> f x = false.
Proof.
  induction l as [|a l IH]; simpl.
  - split; [intros _ ? [] | done].
  - rewrite orb_false_iff, IH. split.
    + intros [Ha Hl] x [<- | Hin]; auto.
    + intros H. split; [apply H; auto | intros x Hin; apply H; auto].
Qed.

Lemma dict_get_In (k : string) (v : json) items :
  dict_get k items = Some v -> In (k, v) items.
Proof.
  induction items as [|[k' v'] items IH]; simpl; [discriminate |].
  destruct (String.eqb_spec k k') as [-> | Hne].
  - intros [= ->]. by left.
  - intros H. right. auto.
Qed.

Lemma dict_get_None (k : string) items :
  dict_get k items = None <-> ~ In k (map fst items).
Proof.
  induction items as [|[k' v'] items IH]; simpl; [tauto |].
  destruct (String.eqb_spec k k') as [-> | Hne].
  - split; [discriminate | intros H; destruct H; by left].
  - rewrite IH. split; [intros H [Heq | Hin]; [congruence | done] | tauto].
Qed.

Lemma dict_get_key_in (k : string) (v : json) items :
  In (k, v) items -> exists v', dict_get k items = Some v'.
Proof.
  intros Hin. destruct (dict_get k items) as [v' |] eqn:Hget; [eauto |].
  apply dict_get_None in Hget. destruct Hget.
  apply in_map_iff. by exists (k, v).
Qed.

(** Under distinct keys an item is what its key looks up. *)
Lemma dict_get_NoDup (k : string) (v : json) items :
  NoDup (map fst items) -> In (k, v) items -> dict_get k items = Some v.
Proof.
  induction items as [|[k' v'] items IH]; simpl; [done |].
  intros Hnd [Heq | Hin].
  - injection Heq as -> ->. by rewrite String.eqb_refl.
  - apply NoDup_cons in Hnd as [Hnotin Hnd].
    destruct (String.eqb_spec k k') as [-> | Hne]; [| auto].
    destruct Hnotin. apply list_elem_of_In, in_map_iff. by exists (k', v).
Qed.

Lemma wf_list items :
  wf (JList items) = true <-> forall x, In x items -> wf x = true.
Proof. simpl. apply forallb_forall. Qed.

Lemma wf_dict items :
  wf (JDict items) = true <->
  NoDup (map fst items) /\ forall kv, In kv items -> wf (snd kv) = true.
Proof.
  simpl. by rewrite andb_true_iff, bool_decide_eq_true, forallb_forall.
Qed.

(** A document with distinct keys shows no difference with itself. *)
Lemma no_diff_refl (j : json) : wf j = true -> no_diff j j = true.
Proof.
  induction j as [| b | n | s | items IH | items IH] using json_ind;
    intros Hwf; simpl.
  - done.
  - by destruct b.
  - apply Z.eqb_refl.
  - apply String.eqb_refl.
  - rewrite Forall_forall in IH. rewrite wf_list in Hwf.
    assert (forall x, In x items -> existsb (fun y => no_diff x y) items = true).
    { intros x Hin. apply existsb_exists. exists x. split; [done |].
      apply IH; [by apply list_elem_of_In | auto]. }
    apply andb_true_iff; split; apply forallb_forall; intros x Hin.
    + auto.
    + apply existsb_exists. exists x. split; [done |].
      apply IH; [by apply list_elem_of_In | auto].
  - rewrite Forall_forall in IH. apply wf_dict in Hwf as [Hnd Hwf].
    apply andb_true_iff; split; apply forallb_forall; intros [k v] Hin; simpl.
    + rewrite (dict_get_NoDup _ _ _ Hnd Hin).
      apply (IH (k, v)); [by apply list_elem_of_In | by apply (Hwf (k, v))].
    + by rewrite (dict_get_NoDup _ _ _ Hnd Hin).
Qed.

Lemma Forall2_In_l {A B} (R : A -> B -> Prop) xs ys x :
  Forall2 R xs ys -> In x xs -> exists y, In y ys /\ R x y.
Proof.
  induction 1 as [|x' y' xs ys HR _ IH]; simpl; [done |].
  intros [<- | Hin]; [eauto |].
  destruct (IH Hin) as (y & Hy & HRy). eauto.
Qed.

Lemma Forall2_In_r {A B} (R : A -> B -> Prop) xs ys y :
  Forall2 R xs ys -> In y ys -> exists x, In x xs /\ R x y.
Proof.
  induction 1 as [|x' y' xs ys HR _ IH]; simpl; [done |].
  intros [<- | Hin]; [eauto |].
  destruct (IH Hin) as (x & Hx & HRx). eauto.
Qed.

Lemma Forall2_same_keys (R : json -> json -> Prop)
    (xs zs : list (string * json)) :
  Forall2 (fun x z => fst x = fst z /\ R (snd x) (snd z)) xs zs ->
  map fst xs = map fst zs.
Proof. induction 1 as [|x z xs zs [Hk _] _ IH]; simpl; congruence. Qed.

(** Documents that differ in the order of keys only show no difference. *)
Lemma key_reorder_no_diff (a : json) :
  wf a = true -> forall b, key_reorder a b -> no_diff a b = true.
Proof.
  induction a as [| x | n | s | xs IH | xs IH] using json_ind;
    intros Hwf b Hkr;
    inversion Hkr as [j Hj | xs' ys HF | xs' zs ys HF Hperm]; subst;
    try (by apply no_diff_refl).
  - rewrite Forall_forall in IH. rewrite wf_list in Hwf. simpl.
    apply andb_true_iff; split; apply forallb_forall.
    + intros x Hin. destruct (Forall2_In_l _ _ _ _ HF Hin) as (y & Hy & Hxy).
      apply existsb_exists. exists y. split; [done |].
      apply IH; [by apply list_elem_of_In | auto | done].
    + intros y Hin. destruct (Forall2_In_r _ _ _ _ HF Hin) as (x & Hx & Hxy).
      apply existsb_exists. exists x. split; [done |].
      apply IH; [by apply list_elem_of_In | auto | done].
  - rewrite Forall_forall in IH. apply wf_dict in Hwf as [Hnd Hwf].
    pose proof (Forall2_same_keys _ _ _ HF) as Hkeys.
    assert (NoDup (map fst ys)) as Hndy.
    { rewrite <- Hperm, <- Hkeys. done. }
    simpl. apply andb_true_iff; split; apply forallb_forall.
    + intros [k v] Hin. simpl.
      destruct (Forall2_In_l _ _ _ _ HF Hin) as ([k' v'] & Hz & Hk & Hv).
      simpl in Hk, Hv. subst k'.
      assert (In (k, v') ys) as Hy.
      { apply list_elem_of_In. rewrite <- Hperm. by apply list_elem_of_In. }
      rewrite (dict_get_NoDup _ _ _ Hndy Hy).
      apply (IH (k, v)); [by apply list_elem_of_In | by apply (Hwf (k, v)) | done].
    + intros [k v'] Hin. simpl.
      assert (In (k, v') zs) as Hz.
      { apply list_elem_of_In. rewrite Hperm. by apply list_elem_of_In. }
      destruct (Forall2_In_r _ _ _ _ HF Hz) as ([k' v] & Hx & Hk & _).
      simpl in Hk. subst k'.
      by rewrite (dict_get_NoDup _ _ _ Hnd Hx).
Qed.

(** Every change of a key or of a value is reported ... *)
Lemma differ_no_diff (a b : json) : differ a b -> no_diff a b = false.
Proof.
  induction 1 as [a b Hc Hne | xs ys k v Hx Hy | xs ys k v Hx Hy
                 | xs ys k v v' Hx Hy _ IH | xs ys x Hin _ IH
                 | xs ys y Hin _ IH]; simpl.
  - destruct a as [| x | n | s | xs | xs], b as [| y | m | t | ys | ys];
      simpl in *; try done.
    + destruct x, y; simpl; congruence.
    + destruct (Z.eqb_spec n m); congruence.
    + destruct (String.eqb_spec s t); congruence.
  - apply andb_false_iff. left. apply forallb_false.
    exists (k, v). split; [by apply dict_get_In |]. simpl. by rewrite Hy.
  - apply andb_false_iff. right. apply forallb_false.
    exists (k, v). split; [by apply dict_get_In |]. simpl. by rewrite Hx.
  - apply andb_false_iff. left. apply forallb_false.
    exists (k, v). split; [by apply dict_get_In |]. simpl. by rewrite Hy.
  - apply andb_false_iff. left. apply forallb_false.
    exists x. split; [done |]. by apply existsb_false.
  - apply andb_false_iff. right. apply forallb_false.
    exists y. split; [done |]. by apply existsb_false.
Qed.

(** ... and a reported difference is such a change. *)
Lemma no_diff_differ (a : json) :
  wf a = true -> forall b, no_diff a b = false -> differ a b.
Proof.
  induction a as [| x | n | s | xs IH | xs IH] using json_ind;
    intros Hwf [| y | m | t | ys | ys] Hd; simpl in Hd;
    try discriminate;
    try (apply Ch_value; [done | discriminate]).
  - apply Ch_value; [done |]. intros [= ->]. by destruct y.
  - apply Ch_value; [done |]. intros [= ->]. by rewrite Z.eqb_refl in Hd.
  - apply Ch_value; [done |]. intros [= ->]. by rewrite String.eqb_refl in Hd.
  - rewrite Forall_forall in IH. rewrite wf_list in Hwf.
    apply andb_false_iff in Hd as [Hd | Hd];
      apply forallb_false in Hd as (z & Hin & Hz);
      rewrite existsb_false in Hz.
    + apply (Ch_item_removed _ _ z); [done |]. intros y Hy.
      apply IH; [by apply list_elem_of_In | auto | auto].
    + apply (Ch_item_added _ _ z); [done |]. intros x Hx.
      apply IH; [by apply list_elem_of_In | auto | auto].
  - rewrite Forall_forall in IH. apply wf_dict in Hwf as [Hnd Hwf].
    apply andb_false_iff in Hd as [Hd | Hd];
      apply forallb_false in Hd as ([k v] & Hin & Hz); simpl in Hz.
    + pose proof (dict_get_NoDup _ _ _ Hnd Hin) as Hx.
      destruct (dict_get k ys) as [v' |] eqn:Hy.
      * apply (Ch_under_key _ _ k v v'); [done | done |].
        apply (IH (k, v)); [by apply list_elem_of_In | by apply (Hwf (k, v)) | done].
      * by apply (Ch_key_removed _ _ k v).
    + destruct (dict_get_key_in _ _ _ Hin) as (v' & Hy).
      destruct (dict_get k xs) eqn:Hx; [done |].
      by apply (Ch_key_added _ _ k v').
Qed.

End JsonFacts.

(** ** Facts about [export_openapi_spec] *)

Section ExportFacts.
Import PyStr Json Converter.

Lemma dict_get_set_eq k v items : dict_get k (dict_set k v items) = Some v.
Proof.
  induction items as [|[k' v'] items IH]; simpl.
  - by rewrite String.eqb_refl.
  - destruct (String.eqb_spec k k') as [-> | Hne]; simpl.
    + by rewrite String.eqb_refl.
    + by destruct (String.eqb_spec k k').
Qed.

Lemma dict_get_set_ne k k' v items :
  k <> k' -> dict_get k' (dict_set k v items) = dict_get k' items.
Proof.
  intros Hne. induction items as [|[k0 v0] items IH]; simpl.
  - by destruct (String.eqb_spec k' k); [congruence |].
  - destruct (String.eqb_spec k k0) as [-> | Hne0]; simpl.
    + by destruct (String.eqb_spec k' k0); [congruence |].
    + by rewrite IH.
Qed.

Lemma dict_set_same k v items :
  dict_get k items = Some v -> dict_set k v items = items.
Proof.
  induction items as [|[k' v'] items IH]; simpl; [discriminate |].
  destruct (String.eqb_spec k k') as [-> | Hne].
  - by intros [= ->].
  - intros H. by rewrite IH.
Qed.

Lemma dict_set_set k v1 v2 items :
  dict_set k v2 (dict_set k v1 items) = dict_set k v2 items.
Proof.
  induction items as [|[k' v'] items IH]; simpl.
  - by rewrite String.eqb_refl.
  - destruct (String.eqb_spec k k') as [-> | Hne]; simpl.
    + by rewrite String.eqb_refl.
    + destruct (String.eqb_spec k k'); [done |]. by rewrite IH.
Qed.

(** An assignment to a key in the middle of the items. *)
Lemma dict_set_middle k v v' (done_ todo : list (string * json)) :
  ~ In k (map fst done_) ->
  dict_set k v' (done_ ++ (k, v) :: todo) = done_ ++ (k, v') :: todo.
Proof.
  induction done_ as [|[k0 v0] done_ IH]; simpl; intros Hin.
  - by rewrite String.eqb_refl.
  - destruct (String.eqb_spec k k0) as [-> | Hne]; [tauto |].
    rewrite IH; [done | tauto].
Qed.

Lemma dict_get_middle k v (done_ todo : list (string * json)) :
  ~ In k (map fst done_) -> dict_get k (done_ ++ (k, v) :: todo) = Some v.
Proof.
  induction done_ as [|[k0 v0] done_ IH]; simpl; intros Hin.
  - by rewrite String.eqb_refl.
  - destruct (String.eqb_spec k k0) as [-> | Hne]; [tauto |].
    apply IH. tauto.
Qed.

(** The loop of lines 93-95 rewrites the entries of [paths] one by one and
    leaves the rest of the document alone. *)
Lemma strip_loop_entries (todo done_ : list (string * json)) top :
  NoDup (map fst (done_ ++ todo)) ->
  dict_get "paths" top = Some (JDict (done_ ++ todo)) ->
  strip_loop todo (JDict top) =
  let? todo' := strip_entries todo in
  Ok (JDict (dict_set "paths" (JDict (done_ ++ todo')) top)).
Proof.
  revert done_ top. induction todo as [|[path data] todo IH];
    intros done_ top Hnd Hpaths; simpl.
  - by rewrite (dict_set_same _ _ _ Hpaths).
  - unfold strip_entry.
    destruct (subscript data "post") as [post | e] eqn:Hpost; simpl; [| done].
    destruct (subscript post "operationId") as [raw | e] eqn:Hraw; simpl;
      [| done].
    destruct (removesuffix_method raw "_post") as [oid | e]; simpl; [| done].
    rewrite Hpaths. simpl.
    assert (~ In path (map fst done_)) as Hfresh.
    { rewrite map_app in Hnd. simpl in Hnd.
      apply NoDup_app in Hnd as (_ & Hdisj & _).
      intros Hin. apply (Hdisj path); [by apply list_elem_of_In | by left]. }
    rewrite (dict_get_middle _ _ _ _ Hfresh). simpl. rewrite Hpost. simpl.
    destruct post as [| | | | | post_items]; try discriminate. simpl.
    destruct data as [| | | | | data_items]; try discriminate. simpl.
    rewrite (dict_set_middle _ _ _ _ _ Hfresh).
    rewrite (IH (done_ ++ [(path, JDict (dict_set "post"
               (JDict (dict_set "operationId" (JStr oid) post_items))
               data_items))])).
    + destruct (strip_entries todo) as [todo' | e]; simpl; [| done].
      by rewrite dict_set_set, <- app_assoc.
    + rewrite <- app_assoc. simpl.
      rewrite map_app in *. simpl in *. done.
    + rewrite dict_get_set_eq. by rewrite <- app_assoc.
Qed.

Lemma operation_id_strip_entry (data : json) (raw : string) :
  operation_id data = Ok raw ->
  exists data', strip_entry data = Ok data'
                /\ operation_id data' = Ok (removesuffix raw "_post").
Proof.
  unfold operation_id, strip_entry. intros H.
  destruct (subscript data "post") as [post |] eqn:Hpost; simpl in *; [| done].
  destruct (subscript post "operationId") as [raw_id |] eqn:Hraw; simpl in *;
    [| done].
  destruct raw_id as [| | | s | |]; try discriminate. injection H as ->.
  destruct post as [| | | | | post_items]; try discriminate.
  destruct data as [| | | | | data_items]; try discriminate. simpl.
  eexists. split; [done |]. simpl.
  by rewrite !dict_get_set_eq; simpl; rewrite dict_get_set_eq.
Qed.

Lemma strip_entries_total (items : list (string * json)) :
  (forall path data, In (path, data) items ->
                     exists raw, operation_id data = Ok raw) ->
  exists items',
    strip_entries items = Ok items'
    /\ Forall2 (fun x x' =>
                  fst x = fst x'
                  /\ exists raw, operation_id (snd x) = Ok raw
                                 /\ operation_id (snd x') =
                                    Ok (removesuffix raw "_post"))
         items items'.
Proof.
  induction items as [|[path data] items IH]; intros Hall; simpl.
  - exists []. split; [done | constructor].
  - destruct (Hall path data) as (raw & Hraw); [by left |].
    destruct (operation_id_strip_entry _ _ Hraw) as (data' & -> & Hid).
    destruct IH as (items' & -> & HF).
    { intros p d Hin. apply (Hall p d). by right. }
    simpl. eexists. split; [done |]. constructor; [| done].
    simpl. eauto.
Qed.

Lemma in_dict_set k v items kv :
  In kv (dict_set k v items) -> kv = (k, v) \/ In kv items.
Proof.
  induction items as [|[k' v'] items IH]; simpl.
  - intros [<- | []]. by left.
  - destruct (String.eqb_spec k k') as [-> | Hne]; simpl.
    + intros [<- | Hin]; auto.
    + intros [<- | Hin]; [auto |]. destruct (IH Hin); auto.
Qed.

Lemma NoDup_dict_set k v items :
  NoDup (map fst items) -> NoDup (map fst (dict_set k v items)).
Proof.
  induction items as [|[k' v'] items IH]; simpl; intros Hnd.
  - apply NoDup_cons. split; [apply not_elem_of_nil | constructor].
  - apply NoDup_cons in Hnd as [Hnotin Hnd].
    destruct (String.eqb_spec k k') as [-> | Hne]; simpl.
    + apply NoDup_cons. done.
    + apply NoDup_cons. split; [| auto].
      intros Hin. apply list_elem_of_In, in_map_iff in Hin as ([k0 v0] & Hk & Hin).
      simpl in Hk. subst k0.
      apply in_dict_set in Hin as [[= -> ->] | Hin]; [done |].
      apply Hnotin, list_elem_of_In, in_map_iff. by exists (k', v0).
Qed.

Lemma wf_dict_set k v items :
  wf (JDict items) = true -> wf v = true ->
  wf (JDict (dict_set k v items)) = true.
Proof.
  rewrite !wf_dict. intros [Hnd Hwf] Hv. split.
  - by apply NoDup_dict_set.
  - intros kv Hin. apply in_dict_set in Hin as [-> | Hin]; auto.
Qed.

Lemma wf_subscript j k v : wf j = true -> subscript j k = Ok v -> wf v = true.
Proof.
  destruct j as [| | | | | items]; try discriminate. simpl subscript.
  intros Hwf. destruct (dict_get k items) as [v' |] eqn:Hget; [| done].
  intros [= <-]. apply wf_dict in Hwf as [_ Hwf].
  apply (Hwf (k, v')). by apply dict_get_In.
Qed.

Lemma wf_strip_entry data data' :
  wf data = true -> strip_entry data = Ok data' -> wf data' = true.
Proof.
  unfold strip_entry. intros Hwf.
  destruct (subscript data "post") as [post |] eqn:Hpost; simpl; [| done].
  destruct (subscript post "operationId") as [raw |] eqn:Hraw; simpl; [| done].
  destruct (removesuffix_method raw "_post") as [oid |]; simpl; [| done].
  pose proof (wf_subscript _ _ _ Hwf Hpost) as Hwfp.
  destruct post as [| | | | | post_items]; try discriminate.
  destruct data as [| | | | | data_items]; try discriminate. simpl setitem.
  intros [= <-]. apply wf_dict_set; [done |]. by apply wf_dict_set.
Qed.

Lemma wf_strip_entries items items' :
  wf (JDict items) = true -> strip_entries items = Ok items' ->
  wf (JDict items') = true.
Proof.
  revert items'. induction items as [|[path data] items IH];
    intros items'; simpl strip_entries.
  - by intros _ [= <-].
  - intros Hwf.
    destruct (strip_entry data) as [data' |] eqn:Hd; simpl; [| done].
    destruct (strip_entries items) as [rest |] eqn:Hr; simpl; [| done].
    intros [= <-]. apply wf_dict in Hwf as [Hnd Hwf].
    simpl in Hnd. apply NoDup_cons in Hnd as [Hnotin Hnd].
    assert (wf (JDict items) = true) as Hitems.
    { apply wf_dict. split; [done |]. intros kv Hin. apply Hwf. by right. }
    specialize (IH rest Hitems eq_refl). apply wf_dict in IH as [Hnd' Hwf'].
    assert (map fst rest = map fst items) as Hkeys.
    { clear -Hr. revert rest Hr.
      induction items as [|[p d] items IH]; intros rest; simpl.
      - by intros [= <-].
      - destruct (strip_entry d); simpl; [| done].
        destruct (strip_entries items) as [r |]; simpl; [| done].
        intros [= <-]. simpl. by rewrite (IH r). }
    apply wf_dict. split.
    + simpl. apply NoDup_cons. by rewrite Hkeys.
    + intros kv [<- | Hin]; [| auto]. simpl.
      apply (wf_strip_entry data); [| done]. apply (Hwf (path, data)). by left.
Qed.

End ExportFacts.

(** ** Facts about the publishing step and the loop *)

Section ConvertFacts.
Import PyStr Json Converter.

Lemma publish_diff E out_file openapi w :
  no_diff (current_spec w out_file) openapi = false ->
  publish E out_file openapi w = (Ok true, written w out_file openapi).
Proof.
  unfold publish, current_spec, bind, read_file. simpl.
  intros ->. simpl. unfold written. simpl.
  by rewrite <- !app_assoc.
Qed.

Lemma publish_same E out_file openapi w stdout :
  no_diff (current_spec w out_file) openapi = true ->
  git_status_short E out_file = Some stdout ->
  publish E out_file openapi w =
  (Ok (startswith stdout "??"), asked w out_file (startswith stdout "??")).
Proof.
  unfold publish, current_spec, bind, read_file, file_is_untracked, bind.
  simpl. intros -> ->. simpl. unfold asked.
  destruct (startswith stdout "??"); simpl; by rewrite <- !app_assoc.
Qed.

Lemma publish_same_git_error E out_file openapi w :
  no_diff (current_spec w out_file) openapi = true ->
  git_status_short E out_file = None ->
  publish E out_file openapi w =
  (Raise (CalledProcessError out_file),
   {| files := files w; log := log w ++ [GitStatus out_file] |}).
Proof.
  unfold publish, current_spec, bind, read_file, file_is_untracked, bind.
  simpl. by intros -> ->.
Qed.

(** What a step of the loop returns is told by the events it adds. *)
Lemma publish_signals E out_file openapi w changed w' :
  publish E out_file openapi w = (Ok changed, w') ->
  exists evs, log w' = log w ++ evs
              /\ files w' = (if existsb is_write evs
                             then <[out_file := openapi]> (files w)
                             else files w)
              /\ existsb is_write evs
                 = negb (no_diff (current_spec w out_file) openapi)
              /\ changed = existsb (signals_change E) evs.
Proof.
  destruct (no_diff (current_spec w out_file) openapi) eqn:Hd.
  - destruct (git_status_short E out_file) as [stdout |] eqn:Hgit.
    + rewrite (publish_same _ _ _ _ _ Hd Hgit). intros [= <- <-].
      eexists. split; [done |]. simpl. rewrite Hgit.
      by destruct (startswith stdout "??").
    + by rewrite (publish_same_git_error _ _ _ _ Hd Hgit).
  - rewrite (publish_diff _ _ _ _ Hd). intros [= <- <-].
    eexists. split; [done |]. done.
Qed.

Lemma convert_file_signals E p w changed w' :
  convert_file E p w = (Ok changed, w') ->
  exists evs, log w' = log w ++ evs
              /\ changed = existsb (signals_change E) evs.
Proof.
  unfold convert_file, bind, lift.
  destruct (load_definition p) as [definition |]; [| done].
  destruct (export_openapi_spec E definition) as [openapi |]; [| done].
  destruct (with_suffix (rel p) ".json") as [out_file |]; [| done].
  intros H. apply publish_signals in H as (evs & ? & _ & _ & ?). eauto.
Qed.

Lemma convert_loop_files E ps acc w :
  convert_loop E ps acc w =
  match convert_files E ps w with
  | (Ok flags, w') => (Ok (acc || existsb id flags), w')
  | (Raise e, w') => (Raise e, w')
  end.
Proof.
  revert acc w. induction ps as [|p ps IH]; intros acc w; simpl.
  - unfold ret. simpl. by rewrite orb_false_r.
  - unfold bind.
    destruct (convert_file E p w) as [[changed | e] w1]; [| done].
    rewrite IH.
    destruct (convert_files E ps w1) as [[flags | e] w2]; [| done].
    unfold ret. simpl. by rewrite orb_assoc.
Qed.

Lemma convert_files_signals E ps w flags w' :
  convert_files E ps w = (Ok flags, w') ->
  length flags = length ps
  /\ exists evs, log w' = log w ++ evs
                 /\ existsb id flags = existsb (signals_change E) evs.
Proof.
  revert w flags. induction ps as [|p ps IH]; intros w flags; simpl.
  - intros [= <- <-]. split; [done |]. exists []. by rewrite app_nil_r.
  - unfold bind.
    destruct (convert_file E p w) as [[changed | e] w1] eqn:Hp; [| done].
    destruct (convert_files E ps w1) as [[rest | e] w2] eqn:Hps; [| done].
    intros [= <- <-].
    apply convert_file_signals in Hp as (evs1 & Hlog1 & ->).
    apply IH in Hps as (Hlen & evs2 & Hlog2 & Hflags).
    split; [simpl; by rewrite Hlen |].
    exists (evs1 ++ evs2). split.
    + by rewrite Hlog2, Hlog1, app_assoc.
    + simpl. by rewrite existsb_app, Hflags.
Qed.

(** The loop stops at the first file that raises. *)
Lemma convert_loop_app_raise E pre p post acc w b w1 e :
  convert_loop E pre acc w = (Ok b, w1) ->
  convert_file E p w1 = (Raise e, w1) ->
  convert_loop E (pre ++ p :: post) acc w = (Raise e, w1).
Proof.
  revert acc w. induction pre as [|q pre IH]; intros acc w; simpl.
  - intros [= <- <-] Hp. unfold bind. by rewrite Hp.
  - unfold bind.
    destruct (convert_file E q w) as [[changed | e'] w0]; [| done].
    apply IH.
Qed.

Lemma with_suffix_defined (p : PurePath) (a b : string) :
  is_Some (with_suffix p a) -> is_Some (with_suffix p b).
Proof.
  unfold with_suffix. destruct (reverse p) as [|file rdirs]; [done |].
  destruct (truthy file); [eauto | done].
Qed.

Lemma publish_returns E out_file openapi w :
  is_Some (git_status_short E out_file) ->
  exists flag w', publish E out_file openapi w = (Ok flag, w').
Proof.
  intros [stdout Hgit].
  destruct (no_diff (current_spec w out_file) openapi) eqn:Hd.
  - rewrite (publish_same _ _ _ _ _ Hd Hgit). eauto.
  - rewrite (publish_diff _ _ _ _ Hd). eauto.
Qed.

(** A run returns when every file holds a definition, the engine gives a
    document the loop of lines 93-95 can walk, and [git] answers. *)
Lemma run_returns E glob w :
  (forall file, is_Some (git_status_short E file)) ->
  Forall (fun p => exists definition openapi,
                     load_definition p = Ok definition
                     /\ export_openapi_spec E definition = Ok openapi) glob ->
  exists b w', convert_data_product_definitions E glob w = (Ok b, w').
Proof.
  intros Hgit Hall. unfold convert_data_product_definitions.
  generalize false as acc. revert w.
  induction Hall as [|p ps (definition & openapi & Hload & Hexp) _ IH];
    intros w acc; simpl.
  - unfold ret. eauto.
  - unfold bind at 1. unfold convert_file, bind, lift. rewrite Hload, Hexp.
    destruct (with_suffix_defined (rel p) "" ".json") as [out_file Hout].
    { unfold load_definition in Hload.
      destruct (has_loader p); [| done]. simpl in Hload.
      destruct (DEFINITION p); try done.
      destruct (with_suffix (rel p) ""); [eauto | done]. }
    rewrite Hout.
    destruct (publish_returns E out_file openapi w (Hgit out_file))
      as (flag & w1 & ->).
    apply IH.
Qed.

End ConvertFacts.

(** ** The properties of the specification *)

Section Properties.
Import PyStr Json Converter.

(** What [__init__] leaves in the two fields it defaults. *)
Lemma init_description (fields : DataProductDefinition) :
  summary fields <> "" ->
  description (__init__ fields)
  = (if opt_truthy (description fields) then description fields
     else Some (summary fields)).
Proof.
  intros Hs. apply truthy_true in Hs. unfold __init__. rewrite Hs.
  destruct (opt_truthy (route_description fields)); simpl;
    destruct (opt_truthy (description fields)) eqn:Hd; simpl; done.
Qed.

Lemma init_route_description (fields : DataProductDefinition) :
  summary fields <> "" ->
  route_description (__init__ fields)
  = (if opt_truthy (route_description fields) then route_description fields
     else Some (summary fields)).
Proof.
  intros Hs. apply truthy_true in Hs. unfold __init__. rewrite Hs.
  destruct (opt_truthy (route_description fields)) eqn:Hr; simpl;
    destruct (opt_truthy (description fields)); simpl; done.
Qed.

(** C6.  A definition built with a non-empty summary and without a
    description and a route description has both equal to the summary. *)
Theorem init_defaults_to_summary (fields : DataProductDefinition) :
  summary fields <> "" ->
  description fields = None ->
  route_description fields = None ->
  description (__init__ fields) = Some (summary fields)
  /\ route_description (__init__ fields) = Some (summary fields).
Proof.
  intros Hs Hd Hr.
  rewrite (init_description fields Hs), (init_route_description fields Hs).
  by rewrite Hd, Hr.
Qed.

Lemma init_defaults_to_summary_witness :
  summary Samples.only_summary <> ""
  /\ description (__init__ Samples.only_summary) = Some "Foo"
  /\ route_description (__init__ Samples.only_summary) = Some "Foo".
Proof.
  split; [discriminate |].
  apply (init_defaults_to_summary Samples.only_summary);
    [discriminate | reflexivity | reflexivity].
Defined.

(** C10.  With a non-empty summary, a description (a route description)
    passed as the empty string is replaced by the summary like one that was
    not passed, and a non-empty one is kept. *)
Theorem init_empty_string_as_unset (fields : DataProductDefinition) :
  summary fields <> "" ->
  (description fields = Some "" ->
   description (__init__ fields) = Some (summary fields))
  /\ (route_description fields = Some "" ->
      route_description (__init__ fields) = Some (summary fields))
  /\ (forall given, given <> "" -> description fields = Some given ->
                    description (__init__ fields) = Some given)
  /\ (forall given, given <> "" -> route_description fields = Some given ->
                    route_description (__init__ fields) = Some given).
Proof.
  intros Hs.
  rewrite (init_description fields Hs), (init_route_description fields Hs).
  repeat split.
  - by intros ->.
  - by intros ->.
  - intros given Hne ->. simpl. apply truthy_true in Hne. by rewrite Hne.
  - intros given Hne ->. simpl. apply truthy_true in Hne. by rewrite Hne.
Qed.

Lemma init_empty_string_as_unset_witness :
  summary Samples.empty_description <> ""
  /\ description (__init__ Samples.empty_description) = Some "Foo"
  /\ route_description (__init__ Samples.empty_description) = Some "Bar".
Proof.
  split; [discriminate |].
  destruct (init_empty_string_as_unset Samples.empty_description)
    as (Hd & _ & _ & Hr); [discriminate |].
  split; [apply Hd; reflexivity | apply Hr; [discriminate | reflexivity]].
Defined.

(** C5.  The loader names a definition after the path of its file relative
    to the source folder, without the extension of the file and with
    forward slashes between the components (the file [stem.ext] in the
    folders [dirs] gives [dirs/stem]), and a route summary that is not set
    becomes that name. *)
Theorem load_definition_names_after_path
    (p : source_file) (definition : DataProductDefinition)
    (dirs : list string) (file : string) :
  has_loader p = true ->
  DEFINITION p = Instance definition ->
  rel p = dirs ++ [file] ->
  file <> "" ->
  exists loaded,
    load_definition p = Ok loaded
    /\ name loaded = Some (String.concat "/" (dirs ++ [stem file]))
    /\ route_summary loaded =
       (if opt_truthy (route_summary definition)
        then route_summary definition
        else name loaded)
    /\ (forall s ext,
          file = s +:+ "." +:+ ext ->
          s <> "" -> ext <> "" -> "."%char ∉ chars ext ->
          stem file = s).
Proof.
  intros Hl Hd Hrel Hfile. unfold load_definition.
  rewrite Hl, Hd, Hrel. simpl.
  rewrite with_suffix_last by done. rewrite name_with_suffix_empty.
  eexists. split; [done |]. split; [| split].
  - by destruct (opt_truthy (route_summary definition)).
  - by destruct (opt_truthy (route_summary definition)).
  - intros s ext -> Hs He Hdot. by apply stem_stem_ext.
Qed.

Lemma load_definition_names_after_path_witness :
  exists loaded,
    load_definition Samples.orders_create = Ok loaded
    /\ name loaded = Some "orders/create"
    /\ route_summary loaded = Some "orders/create".
Proof.
  destruct (load_definition_names_after_path Samples.orders_create
              (__init__ Samples.only_summary) ["orders"] "create.py")
    as (loaded & Hload & Hname & Hsum & _);
    [reflexivity | reflexivity | reflexivity | discriminate |].
  exists loaded. split; [exact Hload |]. split; [exact Hname |].
  rewrite Hsum. exact Hname.
Defined.

(** The declarations of the endpoint, before any document is made.  The
    endpoint declares three header parameters.  The consent token
    is a required [str] described as "Consent token" when
    [requires_consent] is set and an [Optional[str]] with default [None]
    described as "Optional consent token" otherwise; the authorization is
    a required [str] when [requires_authorization] is set and an
    [Optional[str]] with default [None] otherwise; the authorization
    provider is always an [Optional[str]] with default [None]. *)
Theorem headers_follow_flags (definition : DataProductDefinition) :
  exists consent authorization provider,
    map header_params (routes (make_app definition))
    = [ [consent; authorization; provider] ]
    /\ param_name consent = "x_consent_token"
    /\ (param_annotation consent, param_default consent,
        param_description consent)
       = (if requires_consent definition
          then (Ann_str, Ellipsis, "Consent token")
          else (Ann_Optional_str, DefaultNone, "Optional consent token"))
    /\ param_name authorization = "authorization"
    /\ (param_annotation authorization, param_default authorization)
       = (if requires_authorization definition
          then (Ann_str, Ellipsis)
          else (Ann_Optional_str, DefaultNone))
    /\ param_name provider = "x_authorization_provider"
    /\ (param_annotation provider, param_default provider)
       = (Ann_Optional_str, DefaultNone).
Proof.
  unfold make_app, request_headers. simpl.
  destruct (requires_authorization definition),
    (requires_consent definition); simpl;
    do 3 eexists; repeat split.
Qed.

(** In the document of the reference engine for [weather.py], which sets
    [requires_consent] only, the consent token is required and the two
    other headers are not. *)
Example weather_headers_in_document :
  (let? paths := subscript Samples.weather_doc "paths" in
   let? entry := subscript paths "/weather" in
   let? post := subscript entry "post" in
   let? parameters := subscript post "parameters" in
   match parameters with
   | JList items =>
       Ok (map (fun item => (subscript item "name", subscript item "required"))
             items)
   | _ => Raise TypeError
   end)
  = Ok [ (Ok (JStr "x-consent-token"), Ok (JBool true));
         (Ok (JStr "authorization"), Ok (JBool false));
         (Ok (JStr "x-authorization-provider"), Ok (JBool false)) ].
Proof. vm_compute. reflexivity. Qed.

(** C8, as amended.  The loop after synthesis takes one trailing ["_post"]
    off the operation id of every entry of [paths] and changes nothing else;
    an id that does not end in ["_post"] stays as it is; a second synthesis
    of the same definition gives a document that shows no difference with
    the first; and stripping twice equals stripping once exactly when the
    id stripped once does not end in ["_post"] itself. *)
Theorem export_strips_one_post_suffix
    (E : env) (definition : DataProductDefinition)
    (top items : list (string * json)) :
  app_openapi E (make_app definition) = JDict top ->
  wf (JDict top) = true ->
  dict_get "paths" top = Some (JDict items) ->
  (forall path data, In (path, data) items ->
                     exists raw, operation_id data = Ok raw) ->
  exists items',
    export_openapi_spec E definition
    = Ok (JDict (dict_set "paths" (JDict items') top))
    /\ strip_entries items = Ok items'
    /\ Forall2 (fun x x' =>
                  fst x = fst x'
                  /\ exists raw, operation_id (snd x) = Ok raw
                                 /\ operation_id (snd x')
                                    = Ok (removesuffix raw "_post"))
         items items'
    /\ (forall again, export_openapi_spec E definition = Ok again ->
                      no_diff (JDict (dict_set "paths" (JDict items') top))
                              again = true)
    /\ (forall r, removesuffix (r +:+ "_post") "_post" = r)
    /\ (forall id, endswith id "_post" = false ->
                   removesuffix id "_post" = id)
    /\ (forall id,
          removesuffix (removesuffix id "_post") "_post"
          = removesuffix id "_post"
          <-> endswith (removesuffix id "_post") "_post" = false).
Proof.
  intros Hdoc Hwf Hpaths Hids.
  destruct (strip_entries_total items Hids) as (items' & Hstrip & HF).
  assert (wf (JDict items) = true) as Hwfi.
  { apply (wf_subscript (JDict top) "paths"); [done |]. simpl. by rewrite Hpaths. }
  assert (export_openapi_spec E definition
          = Ok (JDict (dict_set "paths" (JDict items') top))) as Hexp.
  { unfold export_openapi_spec. rewrite Hdoc. simpl. rewrite Hpaths. simpl.
    rewrite (strip_loop_entries items [] top); simpl.
    - by rewrite Hstrip.
    - by apply wf_dict in Hwfi as [? _].
    - done. }
  exists items'. repeat split.
  - done.
  - done.
  - done.
  - intros again. rewrite Hexp. intros [= <-]. apply no_diff_refl.
    apply wf_dict_set; [done |]. by apply (wf_strip_entries items).
  - intros r. by apply removesuffix_app.
  - intros id. apply removesuffix_other.
  - intros Hidem.
    destruct (endswith (removesuffix id "_post") "_post") eqn:Hend; [| done].
    apply endswith_spec in Hend as (r & Hr).
    rewrite Hr, removesuffix_app in Hidem by done.
    apply (f_equal chars) in Hidem. rewrite chars_app in Hidem.
    apply (f_equal length) in Hidem. rewrite length_app in Hidem.
    simpl in Hidem. lia.
  - apply removesuffix_other.
Qed.

Lemma export_strips_one_post_suffix_witness :
  exists items',
    export_openapi_spec (Reference.engine []) Samples.weather_definition
    = Ok (JDict (dict_set "paths" (JDict items') Samples.weather_top))
    /\ Forall2 (fun x x' =>
                  fst x = fst x'
                  /\ exists raw, operation_id (snd x) = Ok raw
                                 /\ operation_id (snd x')
                                    = Ok (removesuffix raw "_post"))
         Samples.weather_paths items'.
Proof.
  destruct (export_strips_one_post_suffix (Reference.engine [])
              Samples.weather_definition Samples.weather_top
              Samples.weather_paths)
    as (items' & Hexp & _ & HF & _).
  - reflexivity.
  - vm_compute. reflexivity.
  - reflexivity.
  - intros path data [[= <- <-] | []]. eexists. vm_compute. reflexivity.
  - exists items'. split; assumption.
Defined.

(** C8, as stated, fails: the id of a route such as [/a/post] ends in
    ["_post_post"], and a second strip takes a second suffix off. *)
Lemma strip_twice_is_not_strip_once :
  removesuffix (removesuffix "request_a_post_post" "_post") "_post"
  <> removesuffix "request_a_post_post" "_post".
Proof. vm_compute. discriminate. Qed.

(** C3.  When the new document shows no difference with the one that is
    there, the step asks [git] about the file and writes nothing: it
    reports a change when the file is untracked and none otherwise. *)
Theorem unchanged_asks_git
    (E : env) (out_file : PurePath) (openapi : json) (w : world)
    (stdout : string) :
  no_diff (current_spec w out_file) openapi = true ->
  git_status_short E out_file = Some stdout ->
  exists changed w',
    publish E out_file openapi w = (Ok changed, w')
    /\ changed = startswith stdout "??"
    /\ files w' = files w
    /\ log w' = log w ++ [ GitStatus out_file;
                           Stdout (if changed then Untracked else Skipping)
                                  out_file ].
Proof.
  intros Hd Hgit. rewrite (publish_same _ _ _ _ _ Hd Hgit).
  do 2 eexists. split; [done |]. done.
Qed.

Lemma unchanged_asks_git_witness :
  exists w',
    publish (Reference.engine []) ["weather.json"] Samples.weather_doc
      Samples.published_world = (Ok true, w')
    /\ files w' = files Samples.published_world
    /\ log w' = [ GitStatus ["weather.json"];
                  Stdout Untracked ["weather.json"] ].
Proof.
  destruct (unchanged_asks_git (Reference.engine []) ["weather.json"]
              Samples.weather_doc Samples.published_world "?? weather.json")
    as (changed & w' & Hp & -> & Hf & Hl).
  - vm_compute. reflexivity.
  - reflexivity.
  - exists w'. split; [exact Hp |]. split; [exact Hf | exact Hl].
Defined.

(** C1.  The step writes the file exactly when the comparison of the
    document that is there ([{}] when there is none) with the new one
    reports a difference.  In particular a file that holds the document
    synthesized for it and that [git] tracks is not written, and no change
    is reported for it. *)
Theorem writes_only_on_difference
    (E : env) (out_file : PurePath) (openapi : json) (w : world) :
  (no_diff (current_spec w out_file) openapi = false ->
   publish E out_file openapi w = (Ok true, written w out_file openapi))
  /\ (forall r w', publish E out_file openapi w = (r, w') ->
        exists evs, log w' = log w ++ evs
                    /\ existsb is_write evs
                       = negb (no_diff (current_spec w out_file) openapi)
                    /\ (existsb is_write evs = false -> files w' = files w))
  /\ (forall p definition stdout,
        load_definition p = Ok definition ->
        export_openapi_spec E definition = Ok openapi ->
        wf openapi = true ->
        with_suffix (rel p) ".json" = Some out_file ->
        files w !! out_file = Some openapi ->
        git_status_short E out_file = Some stdout ->
        startswith stdout "??" = false ->
        convert_file E p w = (Ok false, asked w out_file false)).
Proof.
  split; [apply publish_diff |]. split.
  - intros r w' Hp.
    destruct (no_diff (current_spec w out_file) openapi) eqn:Hd.
    + destruct (git_status_short E out_file) as [stdout |] eqn:Hgit.
      * rewrite (publish_same _ _ _ _ _ Hd Hgit) in Hp.
        injection Hp as <- <-. eexists. split; [done |]. done.
      * rewrite (publish_same_git_error _ _ _ _ Hd Hgit) in Hp.
        injection Hp as <- <-. eexists. split; [done |]. done.
    + rewrite (publish_diff _ _ _ _ Hd) in Hp.
      injection Hp as <- <-. eexists. split; [done |]. done.
  - intros p definition stdout Hload Hexp Hwf Hout Hfile Hgit Htracked.
    unfold convert_file, bind, lift. rewrite Hload, Hexp, Hout.
    rewrite (publish_same E out_file openapi w stdout).
    + by rewrite Htracked.
    + unfold current_spec. rewrite Hfile. by apply no_diff_refl.
    + done.
Qed.

Lemma writes_only_on_difference_witness :
  convert_file (Reference.engine [["weather.json"]]) Samples.weather
    Samples.published_world
  = (Ok false, asked Samples.published_world ["weather.json"] false).
Proof.
  destruct (writes_only_on_difference (Reference.engine [["weather.json"]])
              ["weather.json"] Samples.weather_doc Samples.published_world)
    as (_ & _ & H).
  apply (H Samples.weather Samples.weather_definition "").
  - reflexivity.
  - vm_compute. reflexivity.
  - vm_compute. reflexivity.
  - reflexivity.
  - reflexivity.
  - reflexivity.
  - reflexivity.
Defined.

(** C2, as amended.  Two documents that differ in the order of the keys of
    their dictionaries only show no difference: nothing is written, and the
    change reported is whether the file is untracked.  A difference is
    shown exactly for a scalar or a type that changed, a key that was added
    or removed, a value that changed under a key and a list item without an
    equal one on the other side; the order and the repetition of the items
    of a list are not reported. *)
Theorem key_order_ignored_changes_reported (prior candidate : json) :
  wf prior = true ->
  (key_reorder prior candidate ->
   no_diff prior candidate = true
   /\ forall E out_file w stdout,
        files w !! out_file = Some prior ->
        git_status_short E out_file = Some stdout ->
        publish E out_file candidate w
        = (Ok (startswith stdout "??"),
           asked w out_file (startswith stdout "??")))
  /\ (differ prior candidate <-> no_diff prior candidate = false)
  /\ (no_diff prior candidate = false ->
      forall E out_file w,
        files w !! out_file = Some prior ->
        publish E out_file candidate w
        = (Ok true, written w out_file candidate)).
Proof.
  intros Hwf. split; [| split].
  - intros Hkr. pose proof (key_reorder_no_diff _ Hwf _ Hkr) as Hd.
    split; [done |]. intros E out_file w stdout Hfile Hgit.
    apply publish_same; [| done]. unfold current_spec. by rewrite Hfile.
  - split; [apply differ_no_diff | by apply no_diff_differ].
  - intros Hd E out_file w Hfile. apply publish_diff.
    unfold current_spec. by rewrite Hfile.
Qed.

Lemma ab_ba_key_reorder : key_reorder Samples.ab Samples.ba.
Proof.
  apply (KR_dict _ [ ("a", JInt 1); ("b", JInt 2) ]).
  - repeat constructor.
  - apply perm_swap.
Qed.

Lemma key_order_ignored_changes_reported_witness :
  no_diff Samples.ab Samples.ba = true
  /\ publish (Reference.engine [["ab.json"]]) ["ab.json"] Samples.ba
       Samples.ab_world
     = (Ok false, asked Samples.ab_world ["ab.json"] false).
Proof.
  destruct (key_order_ignored_changes_reported Samples.ab Samples.ba)
    as (H & _ & _); [reflexivity |].
  destruct (H ab_ba_key_reorder) as (Hd & Hp).
  split; [exact Hd |].
  apply (Hp (Reference.engine [["ab.json"]]) ["ab.json"] Samples.ab_world "");
    reflexivity.
Defined.

(** C2, as stated, fails twice.  A document that differs from the one in an
    untracked file in the order of its keys only is reported as changed;
    and a list item that changed from ["a"] to ["b"] is not reported when
    both values occur elsewhere in the list. *)
Lemma key_order_and_repetition_counterexample :
  (key_reorder Samples.ab Samples.ba
   /\ fst (publish (Reference.engine []) ["ab.json"] Samples.ba
             Samples.ab_world) = Ok true)
  /\ (Samples.aab <> Samples.abb
      /\ ~ key_reorder Samples.aab Samples.abb
      /\ no_diff Samples.aab Samples.abb = true).
Proof.
  split; [split; [apply ab_ba_key_reorder | vm_compute; reflexivity] |].
  split; [discriminate |]. split; [| reflexivity].
  intros H. inversion H as [j Hj | | xs zs ys HF Hperm]; subst.
  apply Permutation_sym, Permutation_length_1_inv in Hperm. subst.
  inversion HF as [| x z xs' zs' [_ Hv] _]; subst. simpl in Hv.
  inversion Hv as [j Hj | xs ys HF2 |]; subst.
  inversion HF2 as [| ? ? ? ? _ HF3]; subst.
  inversion HF3 as [| ? ? ? ? Hab _]; subst.
  inversion Hab.
Qed.

Lemma existsb_id_fold (flags : list bool) :
  existsb id flags = fold_right orb false flags.
Proof. induction flags as [|b flags IH]; simpl; [done | by rewrite IH]. Qed.

(** C4.  A run that returns gives the disjunction of the flags of its
    files, one flag a file: it returns [True] when some document was
    written or some file was found untracked, and [False] when every
    document was there already and tracked. *)
Theorem run_returns_or_of_flags
    (E : env) (glob : list source_file) (w : world) (b : bool) (w' : world) :
  convert_data_product_definitions E glob w = (Ok b, w') ->
  exists flags evs,
    convert_files E glob w = (Ok flags, w')
    /\ length flags = length glob
    /\ b = fold_right orb false flags
    /\ log w' = log w ++ evs
    /\ b = existsb (signals_change E) evs.
Proof.
  unfold convert_data_product_definitions. rewrite convert_loop_files.
  destruct (convert_files E glob w) as [[flags | e] w1] eqn:Hfiles; [| done].
  simpl. intros [= <- <-].
  destruct (convert_files_signals _ _ _ _ _ Hfiles) as (Hlen & evs & Hlog & Hev).
  exists flags, evs. split; [done |]. split; [done |].
  split; [apply existsb_id_fold |]. split; done.
Qed.

Lemma run_returns_or_of_flags_witness :
  exists flags evs,
    convert_files (Reference.engine [["weather.json"]])
      [Samples.orders_create; Samples.weather] Samples.published_world
    = (Ok flags, Samples.second_run)
    /\ length flags = 2
    /\ true = fold_right orb false flags
    /\ log Samples.second_run = log Samples.published_world ++ evs
    /\ true = existsb (signals_change (Reference.engine [["weather.json"]]))
                evs.
Proof.
  apply (run_returns_or_of_flags (Reference.engine [["weather.json"]])
           [Samples.orders_create; Samples.weather]
           Samples.published_world true Samples.second_run).
  vm_compute. reflexivity.
Defined.

Lemma convert_file_missing_definition (E : env) (p : source_file) (w : world) :
  has_loader p = true ->
  convert_file E p w =
  match DEFINITION p with
  | Absent => (Raise (AttributeError_module (rel p) "DEFINITION"), w)
  | IsNone => (Raise (ValueError_DEFINITION (rel p)), w)
  | Instance _ => convert_file E p w
  end.
Proof.
  intros Hl. unfold convert_file, bind, lift, load_definition. rewrite Hl.
  simpl. by destruct (DEFINITION p).
Qed.

(** C9.  A file whose module has no [DEFINITION], or has [None] there,
    stops the run with the error of that file ([AttributeError] from
    [getattr] in the first case, the [ValueError] of line 114 in the
    second): the world is left as the files before it left it, so that
    their documents stay and nothing is done for the files after it. *)
Theorem missing_definition_stops_run
    (E : env) (before after : list source_file) (p : source_file)
    (w : world) (b : bool) (w1 : world) :
  convert_data_product_definitions E before w = (Ok b, w1) ->
  has_loader p = true ->
  DEFINITION p = Absent \/ DEFINITION p = IsNone ->
  exists e,
    convert_data_product_definitions E (before ++ p :: after) w = (Raise e, w1)
    /\ (DEFINITION p = Absent ->
        e = AttributeError_module (rel p) "DEFINITION")
    /\ (DEFINITION p = IsNone -> e = ValueError_DEFINITION (rel p)).
Proof.
  unfold convert_data_product_definitions. intros Hbefore Hl Hmissing.
  pose proof (convert_file_missing_definition E p w1 Hl) as Hp.
  destruct Hmissing as [Hd | Hd]; rewrite Hd in Hp; eexists;
    (split; [by apply (convert_loop_app_raise _ _ _ _ _ _ _ _ _ Hbefore) |]);
    split; intros; congruence.
Qed.

Lemma missing_definition_stops_run_witness :
  exists e,
    convert_data_product_definitions (Reference.engine [])
      ([Samples.orders_create] ++ Samples.no_definition :: [Samples.weather])
      Samples.empty_world
    = (Raise e, Samples.first_run)
    /\ (DEFINITION Samples.no_definition = Absent ->
        e = AttributeError_module ["broken.py"] "DEFINITION")
    /\ (DEFINITION Samples.no_definition = IsNone ->
        e = ValueError_DEFINITION ["broken.py"]).
Proof.
  apply (missing_definition_stops_run (Reference.engine [])
           [Samples.orders_create] [Samples.weather] Samples.no_definition
           Samples.empty_world true Samples.first_run).
  - vm_compute. reflexivity.
  - reflexivity.
  - left. reflexivity.
Defined.

End Properties.

(** ** Further facts about names and destinations *)

Section NameFacts.
Import PyStr Json Converter Runs.

Lemma append_assoc' (a b c : string) : (a +:+ b) +:+ c = a +:+ (b +:+ c).
Proof. apply chars_inj. by rewrite !chars_app, app_assoc. Qed.

Lemma truthy_append_l (a b : string) : truthy a = true -> truthy (a +:+ b) = true.
Proof. by destruct a. Qed.

(** A final component is its stem followed by the new suffix. *)
Lemma name_with_suffix_stem (file new : string) :
  name_with_suffix file new = stem file +:+ new.
Proof.
  unfold name_with_suffix, suffix, stem.
  pose proof (rfind_lt "."%char (chars file)) as Hlt.
  set (l := chars file) in *. set (i := rfind "."%char l) in *.
  destruct ((0 <? i)%Z && (i <? Z.of_nat (length l) - 1)%Z) eqn:Hc; [| done].
  apply andb_true_iff in Hc as [H0 H1]. apply Z.ltb_lt in H0, H1.
  assert (length (drop (Z.to_nat i) l) = length l - Z.to_nat i) as Hlen
    by apply length_drop.
  assert (truthy (str (drop (Z.to_nat i) l)) = true) as ->.
  { apply truthy_true. intros Heq. apply (f_equal chars) in Heq.
    rewrite chars_str in Heq. simpl in Heq. rewrite Heq in Hlen.
    simpl in Hlen. lia. }
  rewrite chars_str, Hlen.
  by replace (length l - (length l - Z.to_nat i)) with (Z.to_nat i) by lia.
Qed.

Lemma stem_truthy (file : string) : file <> "" -> stem file <> "".
Proof.
  intros Hne. unfold stem.
  pose proof (rfind_lt "."%char (chars file)) as Hlt.
  set (l := chars file) in *. set (i := rfind "."%char l) in *.
  destruct ((0 <? i)%Z && (i <? Z.of_nat (length l) - 1)%Z) eqn:Hc; [| done].
  apply andb_true_iff in Hc as [H0 H1]. apply Z.ltb_lt in H0, H1.
  intros Heq. apply (f_equal chars) in Heq. rewrite chars_str in Heq.
  apply (f_equal length) in Heq. rewrite length_take in Heq. simpl in Heq. lia.
Qed.

Lemma with_suffix_Some (p q : PurePath) (new : string) :
  with_suffix p new = Some q ->
  exists dirs file,
    p = dirs ++ [file] /\ file <> ""
    /\ q = dirs ++ [name_with_suffix file new].
Proof.
  unfold with_suffix. destruct (reverse p) as [|file rdirs] eqn:Hrev; [done |].
  destruct (truthy file) eqn:Ht; [| done]. intros [= <-].
  exists (reverse rdirs), file. split; [| split; [by apply truthy_true | done]].
  rewrite <- (reverse_involutive p), Hrev. by rewrite reverse_cons.
Qed.

Lemma concat_snoc_append (dirs : list string) (a b : string) :
  String.concat "/" (dirs ++ [a +:+ b]) = String.concat "/" (dirs ++ [a]) +:+ b.
Proof.
  induction dirs as [|d dirs IH]; [done |].
  destruct dirs as [|d' dirs].
  - simpl. by rewrite !append_assoc'.
  - change (d +:+ "/" +:+ String.concat "/" ((d' :: dirs) ++ [a +:+ b])
            = (d +:+ "/" +:+ String.concat "/" ((d' :: dirs) ++ [a])) +:+ b).
    by rewrite IH, !append_assoc'.
Qed.

Lemma concat_snoc_truthy (dirs : list string) (a : string) :
  a <> "" -> String.concat "/" (dirs ++ [a]) <> "".
Proof.
  intros Ha. destruct dirs as [|d dirs]; [done |].
  destruct dirs as [|d' dirs]; simpl.
  - intros Heq. apply (f_equal chars) in Heq. rewrite !chars_app in Heq.
    apply (f_equal length) in Heq. rewrite !length_app in Heq. simpl in Heq. lia.
  - intros Heq. apply (f_equal chars) in Heq. rewrite !chars_app in Heq.
    apply (f_equal length) in Heq. rewrite !length_app in Heq. simpl in Heq. lia.
Qed.

Lemma parent_snoc (dirs : list string) (file : string) :
  parent (dirs ++ [file]) = dirs.
Proof.
  unfold parent. rewrite length_app. simpl.
  replace (length dirs + 1 - 1) with (length dirs) by lia.
  apply take_app_length.
Qed.

End NameFacts.

(** ** Further facts about the steps of a run *)

Section RunFacts.
Import PyStr Json Converter Runs.

(** A step is the publication of the document of the file at its
    destination, when both exist. *)
Lemma convert_file_document (E : env) (p : source_file) (w : world) :
  convert_file E p w =
  match document_of E p with
  | Raise e => (Raise e, w)
  | Ok doc =>
      match out_file_of p with
      | Some out_file => publish E out_file doc w
      | None => (Raise (ValueError_empty_name (rel p)), w)
      end
  end.
Proof.
  unfold convert_file, document_of, out_file_of, bind, lift.
  destruct (load_definition p) as [definition |]; simpl; [| done].
  destruct (export_openapi_spec E definition) as [doc |]; simpl; [| done].
  by destruct (with_suffix (rel p) ".json").
Qed.

(** The file of a source file that loads. *)
Lemma load_definition_out_file (p : source_file) definition :
  load_definition p = Ok definition -> is_Some (out_file_of p).
Proof.
  unfold load_definition, out_file_of. destruct (has_loader p); [| done].
  simpl. destruct (DEFINITION p); try done.
  destruct (with_suffix (rel p) "") eqn:Hs; [| done]. intros _.
  apply (with_suffix_defined (rel p) ""). by rewrite Hs.
Qed.

(** The three ways a step ends once the document is there. *)
Lemma publish_cases (E : env) (out_file : PurePath) (doc : json) (w : world) :
  (no_diff (current_spec w out_file) doc = false
   /\ publish E out_file doc w = (Ok true, written w out_file doc))
  \/ (no_diff (current_spec w out_file) doc = true
      /\ exists stdout,
           git_status_short E out_file = Some stdout
           /\ publish E out_file doc w
              = (Ok (startswith stdout "??"),
                 asked w out_file (startswith stdout "??")))
  \/ (no_diff (current_spec w out_file) doc = true
      /\ git_status_short E out_file = None
      /\ publish E out_file doc w
         = (Raise (CalledProcessError out_file),
            {| files := files w; log := log w ++ [GitStatus out_file] |})).
Proof.
  destruct (no_diff (current_spec w out_file) doc) eqn:Hd.
  - destruct (git_status_short E out_file) as [stdout |] eqn:Hgit.
    + right. left. split; [done |]. exists stdout. split; [done |].
      by apply publish_same.
    + right. right. split; [done |]. split; [done |].
      by apply publish_same_git_error.
  - left. split; [done |]. by apply publish_diff.
Qed.

(** What a step adds to the log and does to the files, whatever it
    returns. *)
Lemma convert_file_trace (E : env) (p : source_file) (w : world) r w' :
  convert_file E p w = (r, w') ->
  exists evs,
    log w' = log w ++ evs
    /\ step_events evs
    /\ files w' = replay evs (files w)
    /\ (forall file doc, In (WriteText file doc) evs ->
          out_file_of p = Some file /\ document_of E p = Ok doc
          /\ no_diff (current_spec w file) doc = false)
    /\ (existsb is_write evs = true -> r = Ok true).
Proof.
  rewrite convert_file_document.
  destruct (document_of E p) as [doc | e] eqn:Hdoc.
  2:{ intros [= <- <-]. exists []. rewrite app_nil_r.
      repeat split; try done; constructor. }
  destruct (out_file_of p) as [out_file |] eqn:Hout.
  2:{ intros [= <- <-]. exists []. rewrite app_nil_r.
      repeat split; try done; constructor. }
  destruct (publish_cases E out_file doc w)
    as [(Hd & ->) | [(Hd & stdout & Hgit & ->) | (Hd & Hgit & ->)]];
    intros [= <- <-]; eexists; (split; [reflexivity |]).
  - split; [constructor |]. split; [done |]. split; [| done].
    intros file doc' [Heq | [Heq | [[= <- <-] | [Heq | []]]]]; done.
  - split; [constructor |]. split; [done |]. split; [| done].
    intros file doc' [Heq | [Heq | []]]; [done |].
    by destruct (startswith stdout "??").
  - split; [constructor |]. split; [done |]. split; [| done].
    intros file doc' [Heq | []]; done.
Qed.

Lemma replay_app (evs1 evs2 : list event) fs :
  replay (evs1 ++ evs2) fs = replay evs2 (replay evs1 fs).
Proof. unfold replay. apply fold_left_app. Qed.

Lemma replay_no_write (evs : list event) fs :
  existsb is_write evs = false -> replay evs fs = fs.
Proof.
  revert fs. induction evs as [|e evs IH]; intros fs; [done |].
  simpl. intros H. apply orb_false_iff in H as [He Hevs].
  destruct e; try discriminate; by apply IH.
Qed.

(** A write of [file] is the only way [replay] changes what is at [file]. *)
Lemma replay_other (evs : list event) fs (file : PurePath) :
  (forall doc, ~ In (WriteText file doc) evs) ->
  replay evs fs !! file = fs !! file.
Proof.
  revert fs. induction evs as [|e evs IH]; intros fs Hno; [done |].
  simpl. rewrite IH.
  - destruct e as [| | file' doc | |]; try done.
    destruct (decide (file' = file)) as [-> | Hne].
    + destruct (Hno doc). by left.
    + by rewrite lookup_insert_ne.
  - intros doc Hin. apply (Hno doc). by right.
Qed.

(** The loop over the files, whatever it returns. *)
Lemma convert_loop_trace (E : env) (ps : list source_file) acc (w : world)
    r w' :
  convert_loop E ps acc w = (r, w') ->
  exists evs,
    log w' = log w ++ evs
    /\ run_events evs
    /\ files w' = replay evs (files w)
    /\ (forall file doc, In (WriteText file doc) evs ->
          exists p, In p ps /\ out_file_of p = Some file
                    /\ document_of E p = Ok doc).
Proof.
  revert acc w. induction ps as [|p ps IH]; intros acc w; simpl.
  - intros [= <- <-]. exists []. rewrite app_nil_r.
    repeat split; try done; constructor.
  - unfold bind.
    destruct (convert_file E p w) as [[flag | e] w1] eqn:Hp.
    + intros Hloop.
      apply convert_file_trace in Hp as (evs1 & Hlog1 & Hse & Hf1 & Hw1 & _).
      destruct (IH _ _ Hloop) as (evs2 & Hlog2 & Hre & Hf2 & Hw2).
      exists (evs1 ++ evs2). split; [by rewrite Hlog2, Hlog1, app_assoc |].
      split; [by constructor |].
      split; [by rewrite replay_app, <- Hf1 |].
      intros file doc Hin. apply in_app_or in Hin as [Hin | Hin].
      * destruct (Hw1 _ _ Hin) as (? & ? & _). exists p. auto.
      * destruct (Hw2 _ _ Hin) as (q & ? & ?). exists q. auto.
    + intros [= <- <-].
      apply convert_file_trace in Hp as (evs1 & Hlog1 & Hse & Hf1 & Hw1 & _).
      exists evs1. split; [done |].
      split; [rewrite <- (app_nil_r evs1); constructor; [done | constructor] |].
      split; [done |].
      intros file doc Hin. destruct (Hw1 _ _ Hin) as (? & ? & _).
      exists p. auto.
Qed.

End RunFacts.

(** ** Further facts about [export_openapi_spec] *)

Section ExportMoreFacts.
Import PyStr Json Converter Runs.

Lemma dict_set_keys_present k v v0 items :
  dict_get k items = Some v0 -> map fst (dict_set k v items) = map fst items.
Proof.
  induction items as [|[k' v'] items IH]; simpl; [done |].
  destruct (String.eqb_spec k k') as [-> | Hne]; simpl; [done |].
  intros H. by rewrite IH.
Qed.

Lemma same_except_dict_set k v v0 items :
  dict_get k items = Some v0 ->
  same_except k (JDict items) (JDict (dict_set k v items)).
Proof.
  intros Hget. split; [by apply (dict_set_keys_present _ _ v0) |].
  intros k' Hne. apply dict_get_set_ne. congruence.
Qed.

(** The document as the entries of its [paths] rewritten one by one,
    errors included. *)
Lemma export_by_entries (E : env) definition top items :
  app_openapi E (make_app definition) = JDict top ->
  wf (JDict top) = true ->
  dict_get "paths" top = Some (JDict items) ->
  export_openapi_spec E definition =
  let? items' := strip_entries items in
  Ok (JDict (dict_set "paths" (JDict items') top)).
Proof.
  intros Hdoc Hwf Hpaths.
  assert (wf (JDict items) = true) as Hwfi.
  { apply (wf_subscript (JDict top) "paths"); [done |]. simpl. by rewrite Hpaths. }
  unfold export_openapi_spec. rewrite Hdoc. simpl. rewrite Hpaths. simpl.
  rewrite (strip_loop_entries items [] top); [done | | done].
  by apply wf_dict in Hwfi as [? _].
Qed.

Lemma export_Ok_shape (E : env) definition doc :
  export_openapi_spec E definition = Ok doc ->
  exists top items,
    app_openapi E (make_app definition) = JDict top
    /\ dict_get "paths" top = Some (JDict items).
Proof.
  unfold export_openapi_spec.
  destruct (app_openapi E (make_app definition)) as [| | | | | top];
    try discriminate.
  simpl. destruct (dict_get "paths" top) as [paths |] eqn:Hp; [| done].
  simpl. destruct paths as [| | | | | items]; try discriminate.
  eauto.
Qed.

Lemma strip_entries_Forall2 items items' :
  strip_entries items = Ok items' ->
  Forall2 (fun x x' => fst x = fst x' /\ strip_entry (snd x) = Ok (snd x'))
    items items'.
Proof.
  revert items'. induction items as [|[path data] items IH]; intros items';
    simpl.
  - intros [= <-]. constructor.
  - destruct (strip_entry data) as [data' |] eqn:Hd; simpl; [| done].
    destruct (strip_entries items) as [rest |]; simpl; [| done].
    intros [= <-]. constructor; [done | by apply IH].
Qed.

Lemma strip_entry_frame data data' :
  strip_entry data = Ok data' ->
  same_except "post" data data'
  /\ exists post post',
       subscript data "post" = Ok post
       /\ subscript data' "post" = Ok post'
       /\ same_except "operationId" post post'.
Proof.
  unfold strip_entry.
  destruct (subscript data "post") as [post |] eqn:Hpost; simpl; [| done].
  destruct (subscript post "operationId") as [raw |] eqn:Hraw; simpl; [| done].
  destruct (removesuffix_method raw "_post") as [oid |]; simpl; [| done].
  destruct post as [| | | | | post_items]; try discriminate.
  destruct data as [| | | | | data_items]; try discriminate.
  simpl in Hpost, Hraw. simpl setitem. intros [= <-].
  destruct (dict_get "post" data_items) as [post0 |] eqn:Hp; [| done].
  destruct (dict_get "operationId" post_items) as [raw0 |] eqn:Hr; [| done].
  injection Hpost as ->. injection Hraw as ->.
  split; [by apply (same_except_dict_set _ _ (JDict post_items)) |].
  do 2 eexists. split; [done |]. simpl. rewrite dict_get_set_eq.
  split; [done |]. by apply (same_except_dict_set _ _ raw).
Qed.

(** An entry whose operation id has no suffix to lose is left as it is. *)
Lemma strip_entry_same data id :
  operation_id data = Ok id -> endswith id "_post" = false ->
  strip_entry data = Ok data.
Proof.
  unfold operation_id, strip_entry. intros H Hend.
  destruct (subscript data "post") as [post |] eqn:Hpost; simpl in *; [| done].
  destruct (subscript post "operationId") as [raw |] eqn:Hraw; simpl in *;
    [| done].
  destruct raw as [| | | s | |]; try discriminate. injection H as ->.
  simpl. rewrite (removesuffix_other _ _ Hend).
  destruct post as [| | | | | post_items]; try discriminate.
  destruct data as [| | | | | data_items]; try discriminate.
  simpl in *.
  destruct (dict_get "post" data_items) as [post0 |] eqn:Hp; [| done].
  destruct (dict_get "operationId" post_items) as [raw0 |] eqn:Hr; [| done].
  injection Hpost as ->. injection Hraw as ->.
  by rewrite (dict_set_same _ _ _ Hr), (dict_set_same _ _ _ Hp).
Qed.

Lemma strip_entries_same items :
  (forall path data, In (path, data) items ->
     exists id, operation_id data = Ok id /\ endswith id "_post" = false) ->
  strip_entries items = Ok items.
Proof.
  induction items as [|[path data] items IH]; intros Hall; simpl; [done |].
  destruct (Hall path data) as (id & Hid & Hend); [by left |].
  rewrite (strip_entry_same _ _ Hid Hend). simpl.
  rewrite IH; [done |]. intros p d Hin. apply (Hall p d). by right.
Qed.

(** The first entry that cannot be rewritten gives its exception to the
    whole list. *)
Lemma strip_entries_raise done_ done' path data rest e :
  strip_entries done_ = Ok done' ->
  strip_entry data = Raise e ->
  strip_entries (done_ ++ (path, data) :: rest) = Raise e.
Proof.
  revert done'. induction done_ as [|[p d] done_ IH]; intros done'; simpl.
  - intros _ ->. done.
  - destruct (strip_entry d); simpl; [| done].
    destruct (strip_entries done_) as [r |] eqn:Hr; simpl; [| done].
    intros _ He. by rewrite (IH r eq_refl He).
Qed.

(** A document that [export_openapi_spec] returns has a [paths]. *)
Lemma strip_loop_keeps_paths todo top doc :
  is_Some (dict_get "paths" top) ->
  strip_loop todo (JDict top) = Ok doc ->
  exists top', doc = JDict top' /\ is_Some (dict_get "paths" top').
Proof.
  revert top. induction todo as [|[path data] todo IH]; intros top Hp; simpl.
  - intros [= <-]. eauto.
  - destruct (subscript data "post") as [post |]; simpl; [| done].
    destruct (subscript post "operationId") as [raw |]; simpl; [| done].
    destruct (removesuffix_method raw "_post") as [oid |]; simpl; [| done].
    destruct (dict_get "paths" top) as [paths |]; simpl; [| done].
    destruct (subscript paths path) as [entry |]; simpl; [| done].
    destruct (subscript entry "post") as [entry_post |]; simpl; [| done].
    destruct (setitem entry_post "operationId" (JStr oid)) as [ep |]; simpl;
      [| done].
    destruct (setitem entry "post" ep) as [entry' |]; simpl; [| done].
    destruct (setitem paths path entry') as [paths' |]; simpl; [| done].
    apply IH. rewrite dict_get_set_eq. eauto.
Qed.

Lemma export_has_paths (E : env) definition doc :
  export_openapi_spec E definition = Ok doc ->
  exists top, doc = JDict top /\ is_Some (dict_get "paths" top).
Proof.
  intros Hexp. destruct (export_Ok_shape _ _ _ Hexp) as (top & items & Hdoc & Hp).
  unfold export_openapi_spec in Hexp. rewrite Hdoc in Hexp. simpl in Hexp.
  rewrite Hp in Hexp. simpl in Hexp.
  apply (strip_loop_keeps_paths items top); [by rewrite Hp | done].
Qed.

End ExportMoreFacts.

(** ** Further properties of the code *)

Section MoreProperties.
Import PyStr Json Converter Runs.

(** X1.  [__init__] run on its own result changes nothing: the defaults it
    fills in are values it keeps. *)
Theorem init_idempotent (fields : DataProductDefinition) :
  __init__ (__init__ fields) = __init__ fields.
Proof.
  destruct fields as [d n rq rs rd rsum s ra rc].
  destruct s as [|c s], rd as [[|c1 rd] |], d as [[|c2 d] |]; reflexivity.
Qed.

(** X2.  After [__init__] the description and the route description are
    non-empty exactly when the summary is non-empty or they were passed
    non-empty; with an empty summary nothing is filled in.  No other field
    is touched. *)
Theorem init_fills_from_summary (fields : DataProductDefinition) :
  opt_truthy (description (__init__ fields))
  = truthy (summary fields) || opt_truthy (description fields)
  /\ opt_truthy (route_description (__init__ fields))
     = truthy (summary fields) || opt_truthy (route_description fields)
  /\ (summary fields = "" -> __init__ fields = fields)
  /\ name (__init__ fields) = name fields
  /\ route_summary (__init__ fields) = route_summary fields
  /\ summary (__init__ fields) = summary fields
  /\ request (__init__ fields) = request fields
  /\ response (__init__ fields) = response fields
  /\ requires_authorization (__init__ fields) = requires_authorization fields
  /\ requires_consent (__init__ fields) = requires_consent fields.
Proof.
  destruct fields as [d n rq rs rd rsum s ra rc].
  destruct s as [|c s], rd as [[|c1 rd] |], d as [[|c2 d] |];
    repeat split; done.
Qed.

(** X3.  A definition that the loader returns has a non-empty name and a
    non-empty route summary, whatever name its constructor was given; the
    route of its application is [/name]; the fields [__init__] filled and
    the flags are those of the [DEFINITION] of the module. *)
Theorem loaded_definition_is_named (p : source_file)
    (loaded : DataProductDefinition) :
  load_definition p = Ok loaded ->
  exists definition n,
    DEFINITION p = Instance definition
    /\ name loaded = Some n /\ n <> ""
    /\ opt_truthy (route_summary loaded) = true
    /\ map route_path (routes (make_app loaded)) = [ "/" +:+ n ]
    /\ description loaded = description definition
    /\ route_description loaded = route_description definition
    /\ summary loaded = summary definition
    /\ requires_authorization loaded = requires_authorization definition
    /\ requires_consent loaded = requires_consent definition.
Proof.
  unfold load_definition. destruct (has_loader p); [| done]. simpl.
  destruct (DEFINITION p) as [| | definition]; try done.
  destruct (with_suffix (rel p) "") as [q |] eqn:Hq; [| done].
  apply with_suffix_Some in Hq as (dirs & file & _ & Hfile & ->).
  rewrite name_with_suffix_empty.
  pose proof (concat_snoc_truthy dirs _ (stem_truthy _ Hfile)) as Hn.
  intros [= <-]. exists definition, (as_posix (dirs ++ [stem file])).
  split; [done |].
  destruct (opt_truthy (route_summary definition)) eqn:Hrs; simpl;
    repeat split; try done.
  all: by apply truthy_true.
Qed.

Lemma loaded_definition_is_named_witness :
  exists definition n,
    DEFINITION Samples.orders_create = Instance definition
    /\ name (MoreSamples.loaded_orders_create) = Some n /\ n <> ""
    /\ opt_truthy (route_summary MoreSamples.loaded_orders_create) = true
    /\ map route_path (routes (make_app MoreSamples.loaded_orders_create))
       = [ "/" +:+ n ]
    /\ description MoreSamples.loaded_orders_create = description definition
    /\ route_description MoreSamples.loaded_orders_create
       = route_description definition
    /\ summary MoreSamples.loaded_orders_create = summary definition
    /\ requires_authorization MoreSamples.loaded_orders_create
       = requires_authorization definition
    /\ requires_consent MoreSamples.loaded_orders_create
       = requires_consent definition.
Proof.
  apply (loaded_definition_is_named Samples.orders_create
           MoreSamples.loaded_orders_create).
  reflexivity.
Defined.

(** X4.  The document of a definition goes to the file named after it: the
    destination, written with forward slashes, is the name followed by
    [.json], in the same folder below [dest] as the source file is below
    [src]. *)
Theorem destination_follows_name (p : source_file)
    (loaded : DataProductDefinition) :
  load_definition p = Ok loaded ->
  exists n out_file,
    name loaded = Some n
    /\ out_file_of p = Some out_file
    /\ as_posix out_file = n +:+ ".json"
    /\ parent out_file = parent (rel p)
    /\ length out_file = length (rel p).
Proof.
  unfold load_definition, out_file_of. destruct (has_loader p); [| done].
  simpl. destruct (DEFINITION p) as [| | definition]; try done.
  destruct (with_suffix (rel p) "") as [q |] eqn:Hq; [| done].
  apply with_suffix_Some in Hq as (dirs & file & Hrel & Hfile & ->).
  rewrite name_with_suffix_empty. intros [= <-].
  exists (as_posix (dirs ++ [stem file])), (dirs ++ [stem file +:+ ".json"]).
  split; [by destruct (opt_truthy (route_summary definition)) |].
  rewrite Hrel, with_suffix_last, name_with_suffix_stem by done.
  split; [done |]. split; [apply concat_snoc_append |].
  split; [by rewrite !parent_snoc |]. by rewrite !length_app.
Qed.

Lemma destination_follows_name_witness :
  exists n out_file,
    name MoreSamples.loaded_orders_create = Some n
    /\ out_file_of Samples.orders_create = Some out_file
    /\ as_posix out_file = n +:+ ".json"
    /\ parent out_file = parent (rel Samples.orders_create)
    /\ length out_file = length (rel Samples.orders_create).
Proof.
  apply (destination_follows_name Samples.orders_create
           MoreSamples.loaded_orders_create).
  reflexivity.
Defined.

(** X5.  [export_openapi_spec] changes the operation ids and nothing else:
    the document it returns has the keys of the one the engine gave, in
    the same order, and the same values but under [paths]; [paths] has the
    same entries in the same order; every entry is the same but for its
    [post], and every [post] the same but for its [operationId]. *)
Theorem export_touches_operation_ids_only
    (E : env) (definition : DataProductDefinition) (doc : json) :
  wf (app_openapi E (make_app definition)) = true ->
  export_openapi_spec E definition = Ok doc ->
  same_except "paths" (app_openapi E (make_app definition)) doc
  /\ exists items items',
       subscript (app_openapi E (make_app definition)) "paths"
       = Ok (JDict items)
       /\ subscript doc "paths" = Ok (JDict items')
       /\ Forall2 (fun x x' =>
                     fst x = fst x'
                     /\ same_except "post" (snd x) (snd x')
                     /\ exists post post',
                          subscript (snd x) "post" = Ok post
                          /\ subscript (snd x') "post" = Ok post'
                          /\ same_except "operationId" post post')
            items items'.
Proof.
  intros Hwf Hexp.
  destruct (export_Ok_shape _ _ _ Hexp) as (top & items & Hdoc & Hp).
  rewrite Hdoc in *.
  rewrite (export_by_entries E definition top items Hdoc Hwf Hp) in Hexp.
  destruct (strip_entries items) as [items' |] eqn:Hstrip; [| done].
  simpl in Hexp. injection Hexp as <-.
  split; [by apply (same_except_dict_set _ _ (JDict items)) |].
  exists items, items'. simpl. rewrite Hp, dict_get_set_eq.
  split; [done |]. split; [done |].
  apply strip_entries_Forall2 in Hstrip.
  eapply Forall2_impl; [exact Hstrip |].
  intros x x' [Hk Hs]. split; [done |]. by apply strip_entry_frame.
Qed.

Lemma export_touches_operation_ids_only_witness :
  same_except "paths"
    (app_openapi (Reference.engine []) (make_app Samples.weather_definition))
    Samples.weather_doc
  /\ exists items items',
       subscript (app_openapi (Reference.engine [])
                    (make_app Samples.weather_definition)) "paths"
       = Ok (JDict items)
       /\ subscript Samples.weather_doc "paths" = Ok (JDict items')
       /\ Forall2 (fun x x' =>
                     fst x = fst x'
                     /\ same_except "post" (snd x) (snd x')
                     /\ exists post post',
                          subscript (snd x) "post" = Ok post
                          /\ subscript (snd x') "post" = Ok post'
                          /\ same_except "operationId" post post')
            items items'.
Proof.
  apply (export_touches_operation_ids_only (Reference.engine [])
           Samples.weather_definition Samples.weather_doc).
  - vm_compute. reflexivity.
  - vm_compute. reflexivity.
Defined.

(** X6.  A document in which no operation id ends in ["_post"] comes back
    from [export_openapi_spec] as the engine gave it. *)
Theorem export_keeps_document_without_suffix
    (E : env) (definition : DataProductDefinition)
    (top items : list (string * json)) :
  app_openapi E (make_app definition) = JDict top ->
  wf (JDict top) = true ->
  dict_get "paths" top = Some (JDict items) ->
  (forall path data, In (path, data) items ->
     exists id, operation_id data = Ok id /\ endswith id "_post" = false) ->
  export_openapi_spec E definition = Ok (JDict top).
Proof.
  intros Hdoc Hwf Hp Hall.
  rewrite (export_by_entries E definition top items Hdoc Hwf Hp).
  rewrite (strip_entries_same _ Hall). simpl.
  by rewrite (dict_set_same _ _ _ Hp).
Qed.

Lemma export_keeps_document_without_suffix_witness :
  export_openapi_spec (MoreSamples.constant_engine MoreSamples.plain_doc)
    Samples.weather_definition
  = Ok MoreSamples.plain_doc.
Proof.
  apply (export_keeps_document_without_suffix
           (MoreSamples.constant_engine MoreSamples.plain_doc)
           Samples.weather_definition
           (match MoreSamples.plain_doc with JDict top => top | _ => [] end)
           [ ("/x", JDict [ ("post",
                             JDict [ ("operationId", JStr "read_x");
                                     ("summary", JStr "x") ]) ]) ]).
  - reflexivity.
  - vm_compute. reflexivity.
  - reflexivity.
  - intros path data [[= <- <-] | []]. exists "read_x".
    split; vm_compute; reflexivity.
Defined.

(** X7.  When an entry of [paths] cannot be rewritten (it has no [post], its
    [post] has no [operationId], or the id is no string) and the entries
    before it can, [export_openapi_spec] raises the exception of that entry
    and returns no document. *)
Theorem export_raises_at_first_bad_entry
    (E : env) (definition : DataProductDefinition)
    (top done_ rest : list (string * json)) (path : string) (data : json)
    (e : exn) :
  app_openapi E (make_app definition) = JDict top ->
  wf (JDict top) = true ->
  dict_get "paths" top = Some (JDict (done_ ++ (path, data) :: rest)) ->
  (forall p d, In (p, d) done_ -> exists raw, operation_id d = Ok raw) ->
  strip_entry data = Raise e ->
  export_openapi_spec E definition = Raise e.
Proof.
  intros Hdoc Hwf Hp Hdone Hbad.
  rewrite (export_by_entries E definition top _ Hdoc Hwf Hp).
  destruct (strip_entries_total done_ Hdone) as (done' & Hd & _).
  by rewrite (strip_entries_raise _ _ _ _ _ _ Hd Hbad).
Qed.

Lemma export_raises_at_first_bad_entry_witness :
  export_openapi_spec (MoreSamples.constant_engine MoreSamples.get_only_doc)
    Samples.weather_definition
  = Raise (KeyError "post").
Proof.
  apply (export_raises_at_first_bad_entry
           (MoreSamples.constant_engine MoreSamples.get_only_doc)
           Samples.weather_definition
           (match MoreSamples.get_only_doc with JDict top => top | _ => [] end)
           [] [] "/x" (JDict [ ("get", JDict [ ("operationId",
                                          JStr "read_x_get") ]) ])).
  - reflexivity.
  - vm_compute. reflexivity.
  - reflexivity.
  - intros p d [].
  - reflexivity.
Defined.

Lemma convert_loop_app (E : env) (xs ys : list source_file) acc (w : world) :
  convert_loop E (xs ++ ys) acc w =
  match convert_loop E xs acc w with
  | (Ok b, w1) => convert_loop E ys b w1
  | (Raise e, w1) => (Raise e, w1)
  end.
Proof.
  revert acc w. induction xs as [|p xs IH]; intros acc w; simpl; [done |].
  unfold bind. destruct (convert_file E p w) as [[flag | e] w1]; [| done].
  apply IH.
Qed.

Lemma convert_loop_acc (E : env) (ps : list source_file) acc (w : world) :
  convert_loop E ps acc w =
  match convert_loop E ps false w with
  | (Ok b, w1) => (Ok (acc || b), w1)
  | (Raise e, w1) => (Raise e, w1)
  end.
Proof.
  rewrite !convert_loop_files.
  by destruct (convert_files E ps w) as [[flags | e] w1].
Qed.

(** X8.  A run over a list of files in two parts is the run over the first
    part followed by the run over the second from the world the first
    leaves, and returns the disjunction of their results; when the first
    part raises, the second is not run. *)
Theorem run_of_concatenation
    (E : env) (first second : list source_file) (w : world) :
  convert_data_product_definitions E (first ++ second) w =
  match convert_data_product_definitions E first w with
  | (Ok b1, w1) =>
      match convert_data_product_definitions E second w1 with
      | (Ok b2, w2) => (Ok (b1 || b2), w2)
      | (Raise e, w2) => (Raise e, w2)
      end
  | (Raise e, w1) => (Raise e, w1)
  end.
Proof.
  unfold convert_data_product_definitions. rewrite convert_loop_app.
  destruct (convert_loop E first false w) as [[b1 | e] w1]; [| done].
  apply convert_loop_acc.
Qed.

(** X9.  A failure of [git status] on a file whose document is unchanged
    stops the run with [CalledProcessError]: the files before it stay as
    exported, the query is the last event, and the files after it are not
    processed. *)
Theorem git_failure_stops_run
    (E : env) (before after : list source_file) (p : source_file)
    (w : world) (b : bool) (w1 : world) (doc : json) (out_file : PurePath) :
  convert_data_product_definitions E before w = (Ok b, w1) ->
  document_of E p = Ok doc ->
  out_file_of p = Some out_file ->
  no_diff (current_spec w1 out_file) doc = true ->
  git_status_short E out_file = None ->
  convert_data_product_definitions E (before ++ p :: after) w
  = (Raise (CalledProcessError out_file),
     {| files := files w1; log := log w1 ++ [GitStatus out_file] |}).
Proof.
  unfold convert_data_product_definitions.
  intros Hbefore Hdoc Hout Hsame Hgit.
  rewrite convert_loop_app, Hbefore. simpl. unfold bind.
  rewrite convert_file_document, Hdoc, Hout.
  by rewrite (publish_same_git_error _ _ _ _ Hsame Hgit).
Qed.

Lemma git_failure_stops_run_witness :
  convert_data_product_definitions MoreSamples.no_git
    ([Samples.orders_create] ++ Samples.weather :: [Samples.none_definition])
    Samples.published_world
  = (Raise (CalledProcessError ["weather.json"]),
     {| files := files MoreSamples.after_orders;
        log := log MoreSamples.after_orders ++ [GitStatus ["weather.json"]] |}).
Proof.
  apply (git_failure_stops_run MoreSamples.no_git [Samples.orders_create]
           [Samples.none_definition] Samples.weather Samples.published_world
           true MoreSamples.after_orders Samples.weather_doc).
  - vm_compute. reflexivity.
  - vm_compute. reflexivity.
  - reflexivity.
  - vm_compute. reflexivity.
  - reflexivity.
Defined.

(** X10.  The log tells the files: after a run, returned or raised, the
    destination holds what it held before with the writes of the log
    applied in order, and every write is of the document of one of the
    source files at the destination of that file. *)
Theorem files_are_replay_of_log
    (E : env) (glob : list source_file) (w : world)
    (r : result bool) (w' : world) :
  convert_data_product_definitions E glob w = (r, w') ->
  exists evs,
    log w' = log w ++ evs
    /\ files w' = replay evs (files w)
    /\ forall file doc, In (WriteText file doc) evs ->
         exists p, In p glob /\ out_file_of p = Some file
                   /\ document_of E p = Ok doc.
Proof.
  unfold convert_data_product_definitions. intros H.
  destruct (convert_loop_trace _ _ _ _ _ _ H) as (evs & ? & _ & ? & ?).
  eauto.
Qed.

Lemma files_are_replay_of_log_witness :
  exists evs,
    log MoreSamples.both_exported = log Samples.empty_world ++ evs
    /\ files MoreSamples.both_exported = replay evs (files Samples.empty_world)
    /\ forall file doc, In (WriteText file doc) evs ->
         exists p, In p [Samples.orders_create; Samples.weather]
                   /\ out_file_of p = Some file
                   /\ document_of (Reference.engine []) p = Ok doc.
Proof.
  apply (files_are_replay_of_log (Reference.engine [])
           [Samples.orders_create; Samples.weather] Samples.empty_world
           (Ok true) MoreSamples.both_exported).
  vm_compute. reflexivity.
Defined.

Lemma convert_loop_run_trace (E : env) (ps : list source_file) acc
    (w : world) r w' :
  convert_loop E ps acc w = (r, w') ->
  exists evs,
    log w' = log w ++ evs
    /\ run_trace E ps (match r with Ok _ => true | Raise _ => false end) evs.
Proof.
  revert acc w. induction ps as [|p ps IH]; intros acc w; simpl.
  - intros [= <- <-]. exists []. rewrite app_nil_r. split; [done | constructor].
  - unfold bind. rewrite convert_file_document.
    destruct (document_of E p) as [doc | e] eqn:Hdoc.
    2:{ intros [= <- <-]. exists []. rewrite app_nil_r.
        split; [done | constructor]. }
    destruct (out_file_of p) as [out_file |] eqn:Hout.
    2:{ intros [= <- <-]. exists []. rewrite app_nil_r.
        split; [done | constructor]. }
    destruct (publish_cases E out_file doc w)
      as [(_ & ->) | [(_ & stdout & Hgit & ->) | (_ & Hgit & ->)]].
    + intros Hloop. destruct (IH _ _ Hloop) as (rest & Hlog & Htrace).
      eexists. split; [rewrite Hlog; simpl; by rewrite <- app_assoc |].
      by apply RT_written.
    + intros Hloop. destruct (IH _ _ Hloop) as (rest & Hlog & Htrace).
      eexists. split; [rewrite Hlog; simpl; by rewrite <- app_assoc |].
      by apply RT_asked.
    + intros [= <- <-]. eexists. split; [done |]. by apply RT_git_failed.
Qed.

(** What [run_trace] says of single events: a write stands between the
    creation of its folder and the hook on the same file ... *)
Lemma run_trace_write (E : env) ps returned evs before file doc after :
  run_trace E ps returned evs ->
  evs = before ++ WriteText file doc :: after ->
  exists before' after',
    before = before' ++ [ Stdout Exporting file; Mkdir (parent file) ]
    /\ after = PreCommit file :: after'.
Proof.
  intros Htrace. revert before.
  induction Htrace as [| p ps k out d rest Hout Hdoc _ IH
                       | p ps k out stdout rest Hout Hgit _ IH
                       | p ps out Hout Hgit | p ps]; intros before Heq.
  - by destruct before.
  - destruct before as [|e0 [|e1 [|e2 [|e3 before]]]]; simplify_eq/=.
    + by exists [], rest.
    + destruct (IH before eq_refl) as (b' & a' & -> & ->).
      by exists (Stdout Exporting out :: Mkdir (parent out)
                 :: WriteText out d :: PreCommit out :: b'), a'.
  - destruct before as [|e0 [|e1 before]]; simplify_eq/=.
    destruct (IH before eq_refl) as (b' & a' & -> & ->).
    by eexists (_ :: _ :: b'), a'.
  - destruct before as [|e0 [|e1 before]]; simplify_eq/=.
  - by destruct before.
Qed.

(** ... and a query of [git] is followed by the message about the same
    file, or ends the log of a run that raised. *)
Lemma run_trace_git (E : env) ps returned evs before file after :
  run_trace E ps returned evs ->
  evs = before ++ GitStatus file :: after ->
  (exists (untracked : bool) after',
     after = Stdout (if untracked then Untracked else Skipping) file :: after')
  \/ (after = [] /\ returned = false).
Proof.
  intros Htrace. revert before.
  induction Htrace as [| p ps k out d rest Hout Hdoc _ IH
                       | p ps k out stdout rest Hout Hgit _ IH
                       | p ps out Hout Hgit | p ps]; intros before Heq.
  - by destruct before.
  - destruct before as [|e0 [|e1 [|e2 [|e3 before]]]]; simplify_eq/=.
    by apply (IH before).
  - destruct before as [|e0 [|e1 before]]; simplify_eq/=.
    + left. by exists (startswith stdout "??"), rest.
    + by apply (IH before).
  - destruct before as [|e0 [|e1 before]]; simplify_eq/=. by right.
  - by destruct before.
Qed.

(** X11.  The events of a run, returned or raised, are those of its source
    files one after the other, in the order of the files.  A file adds
    either the four events of a write of its document at its destination,
    the hook last, or the query of [git] about its destination followed by
    the message of the answer, never both; a file that raises adds nothing,
    or the query alone when [git] fails, and nothing follows it.  So every
    write stands between the creation of its folder and the hook on the
    same file, and every query of [git] is followed by the message about
    the same file unless it is the last event of a run that raised. *)
Theorem events_follow_files
    (E : env) (glob : list source_file) (w : world)
    (r : result bool) (w' : world) :
  convert_data_product_definitions E glob w = (r, w') ->
  exists evs,
    log w' = log w ++ evs
    /\ run_trace E glob (match r with Ok _ => true | Raise _ => false end) evs
    /\ (forall before file doc after,
          evs = before ++ WriteText file doc :: after ->
          exists before' after',
            before = before' ++ [ Stdout Exporting file; Mkdir (parent file) ]
            /\ after = PreCommit file :: after')
    /\ (forall before file after,
          evs = before ++ GitStatus file :: after ->
          (exists (untracked : bool) after',
             after = Stdout (if untracked then Untracked else Skipping) file
                     :: after')
          \/ (after = [] /\ exists e, r = Raise e)).
Proof.
  intros H. destruct (convert_loop_run_trace _ _ _ _ _ _ H) as (evs & Hlog & Ht).
  exists evs. split; [done |]. split; [done |]. split.
  - intros before file doc after. by eapply run_trace_write.
  - intros before file after Heq.
    destruct (run_trace_git _ _ _ _ _ _ _ Ht Heq) as [? | [-> Hr]];
      [by left | right].
    split; [done |]. destruct r; [done | eauto].
Qed.

Lemma events_follow_files_witness :
  exists evs,
    log (snd (convert_data_product_definitions MoreSamples.no_git
                [Samples.orders_create; Samples.weather;
                 Samples.none_definition] Samples.published_world))
    = log Samples.published_world ++ evs
    /\ run_trace MoreSamples.no_git
         [Samples.orders_create; Samples.weather; Samples.none_definition]
         false evs.
Proof.
  destruct (events_follow_files MoreSamples.no_git
              [Samples.orders_create; Samples.weather;
               Samples.none_definition]
              Samples.published_world
              (Raise (CalledProcessError ["weather.json"]))
              (snd (convert_data_product_definitions MoreSamples.no_git
                      [Samples.orders_create; Samples.weather;
                       Samples.none_definition] Samples.published_world)))
    as (evs & Hlog & Htrace & _).
  - vm_compute. reflexivity.
  - exists evs. split; assumption.
Defined.

Lemma signals_change_write (E : env) (e : event) :
  is_write e = true -> signals_change E e = true.
Proof. by destruct e. Qed.

(** X12.  A run that returns [False] has left the destination as it was:
    no event of it is a write or an answer of [git] that starts with
    ["??"]. *)
Theorem false_means_untouched
    (E : env) (glob : list source_file) (w w' : world) :
  convert_data_product_definitions E glob w = (Ok false, w') ->
  files w' = files w
  /\ exists evs,
       log w' = log w ++ evs
       /\ forall e, In e evs -> signals_change E e = false.
Proof.
  unfold convert_data_product_definitions. intros H.
  destruct (convert_loop_trace _ _ _ _ _ _ H) as (evs & Hlog & _ & Hfiles & _).
  rewrite convert_loop_files in H.
  destruct (convert_files E glob w) as [[flags | e] w1] eqn:Hf; [| done].
  simpl in H. injection H as Hflags <-.
  destruct (convert_files_signals _ _ _ _ _ Hf) as (_ & evs' & Hlog' & Hev).
  rewrite Hlog in Hlog'. apply app_inv_head in Hlog'. subst evs'.
  rewrite Hflags in Hev. symmetry in Hev.
  assert (forall e, In e evs -> signals_change E e = false) as Hnone
    by by apply existsb_false.
  split; [| eauto].
  rewrite Hfiles. apply replay_no_write. apply existsb_false.
  intros e Hin. destruct (is_write e) eqn:Hw; [| done].
  pose proof (Hnone e Hin) as Hs.
  by rewrite (signals_change_write E e Hw) in Hs.
Qed.

Lemma false_means_untouched_witness :
  files (asked Samples.published_world ["weather.json"] false)
  = files Samples.published_world
  /\ exists evs,
       log (asked Samples.published_world ["weather.json"] false)
       = log Samples.published_world ++ evs
       /\ forall e, In e evs ->
            signals_change (Reference.engine [["weather.json"]]) e = false.
Proof.
  apply (false_means_untouched (Reference.engine [["weather.json"]])
           [Samples.weather] Samples.published_world).
  vm_compute. reflexivity.
Defined.

(** X13.  A definition whose destination file does not exist is always
    exported: its document is written, the hook is run and the step
    reports a change, without a question to [git]. *)
Theorem missing_file_is_written
    (E : env) (p : source_file) (w : world) (doc : json)
    (out_file : PurePath) :
  document_of E p = Ok doc ->
  out_file_of p = Some out_file ->
  files w !! out_file = None ->
  convert_file E p w = (Ok true, written w out_file doc).
Proof.
  intros Hdoc Hout Hnone. rewrite convert_file_document, Hdoc, Hout.
  apply publish_diff. unfold current_spec. rewrite Hnone.
  unfold document_of in Hdoc.
  destruct (load_definition p) as [definition |]; [| done]. simpl in Hdoc.
  destruct (export_has_paths _ _ _ Hdoc) as (top & -> & [paths Hp]).
  simpl. apply forallb_false. exists ("paths", paths).
  split; [by apply dict_get_In | done].
Qed.

Lemma missing_file_is_written_witness :
  exists doc,
    convert_file (Reference.engine [["orders"; "create.json"]])
      Samples.orders_create Samples.published_world
    = (Ok true,
       written Samples.published_world ["orders"; "create.json"] doc).
Proof.
  eexists.
  apply (missing_file_is_written (Reference.engine [["orders"; "create.json"]])
           Samples.orders_create Samples.published_world
           (match document_of (Reference.engine []) Samples.orders_create with
            | Ok doc => doc
            | Raise _ => JNull
            end)).
  - vm_compute. reflexivity.
  - reflexivity.
  - reflexivity.
Defined.

Lemma convert_loop_frame (E : env) (ps : list source_file) acc (w : world)
    r w' (file : PurePath) :
  (forall p, In p ps -> out_file_of p <> Some file) ->
  convert_loop E ps acc w = (r, w') ->
  files w' !! file = files w !! file.
Proof.
  intros Hnot H.
  destruct (convert_loop_trace _ _ _ _ _ _ H) as (evs & _ & _ & -> & Hw).
  apply replay_other. intros doc Hin.
  destruct (Hw _ _ Hin) as (p & Hp & Hout & _). by apply (Hnot p).
Qed.

(** X14.  A run touches no file of the destination but those of its source
    files: a document whose source file is gone stays where it is. *)
Theorem other_files_are_kept
    (E : env) (glob : list source_file) (w : world)
    (r : result bool) (w' : world) (file : PurePath) :
  (forall p, In p glob -> out_file_of p <> Some file) ->
  convert_data_product_definitions E glob w = (r, w') ->
  files w' !! file = files w !! file.
Proof. apply convert_loop_frame. Qed.

Lemma other_files_are_kept_witness :
  files (snd (convert_data_product_definitions (Reference.engine [])
                [Samples.orders_create] Samples.published_world))
    !! ["weather.json"]
  = files Samples.published_world !! ["weather.json"].
Proof.
  apply (other_files_are_kept (Reference.engine []) [Samples.orders_create]
           Samples.published_world (Ok true)).
  - intros p [<- | []]. discriminate.
  - vm_compute. reflexivity.
Defined.

Lemma up_to_date_lookup (E : env) (w w' : world) (p : source_file) :
  (forall out_file, out_file_of p = Some out_file ->
                    files w' !! out_file = files w !! out_file) ->
  up_to_date E w' p = up_to_date E w p.
Proof.
  intros H. unfold up_to_date, current_spec.
  destruct (document_of E p); [| done].
  destruct (out_file_of p) as [out_file |]; [| done].
  by rewrite (H out_file eq_refl).
Qed.

Lemma forallb_up_to_date_files (E : env) (w w' : world) ps :
  files w' = files w ->
  forallb (up_to_date E w') ps = forallb (up_to_date E w) ps.
Proof.
  intros Hf. induction ps as [|p ps IH]; simpl; [done |].
  rewrite IH. f_equal. apply up_to_date_lookup. intros. by rewrite Hf.
Qed.

(** When no document differs from its file the loop writes nothing, and
    what it returns tells whether a file is untracked. *)
Lemma convert_loop_up_to_date (E : env) (ps : list source_file) acc
    (w : world) r w' :
  forallb (up_to_date E w) ps = true ->
  convert_loop E ps acc w = (r, w') ->
  files w' = files w
  /\ (exists evs, log w' = log w ++ evs /\ existsb is_write evs = false)
  /\ (forall b, r = Ok b -> b = acc || existsb (untracked_file E) ps).
Proof.
  revert acc w. induction ps as [|p ps IH]; intros acc w; simpl.
  - intros _ [= <- <-]. split; [done |]. split.
    + exists []. by rewrite app_nil_r.
    + intros b [= <-]. by rewrite orb_false_r.
  - intros Hup. apply andb_true_iff in Hup as [Hp Hps].
    unfold bind. rewrite convert_file_document.
    unfold up_to_date in Hp. unfold untracked_file at 1.
    destruct (document_of E p) as [doc | e].
    2:{ intros [= <- <-]. split; [done |]. split; [| done].
        exists []. by rewrite app_nil_r. }
    destruct (out_file_of p) as [out_file |].
    2:{ intros [= <- <-]. split; [done |]. split; [| done].
        exists []. by rewrite app_nil_r. }
    destruct (publish_cases E out_file doc w)
      as [(Hd & _) | [(_ & stdout & Hgit & ->) | (_ & Hgit & ->)]].
    + congruence.
    + rewrite Hgit. intros Hloop.
      destruct (IH (acc || startswith stdout "??")
                  (asked w out_file (startswith stdout "??")))
        as (Hf & (evs & Hlog & Hnw) & Hb); [| done |].
      { by rewrite (forallb_up_to_date_files E w). }
      split; [done |]. split.
      * eexists. split; [rewrite Hlog; simpl; by rewrite <- app_assoc |].
        simpl. by destruct (startswith stdout "??").
      * intros b Hr. rewrite (Hb b Hr). by rewrite orb_assoc.
    + intros [= <- <-]. split; [done |]. split; [| done].
      by exists [GitStatus out_file].
Qed.

(** X15.  When the document of every source file shows no difference with
    the file that is there, a run writes nothing, whether it returns or
    raises; when it returns, it returns [True] exactly when one of the
    files is untracked. *)
Theorem up_to_date_run_writes_nothing
    (E : env) (glob : list source_file) (w : world)
    (r : result bool) (w' : world) :
  forallb (up_to_date E w) glob = true ->
  convert_data_product_definitions E glob w = (r, w') ->
  files w' = files w
  /\ (exists evs, log w' = log w ++ evs /\ existsb is_write evs = false)
  /\ (forall b, r = Ok b -> b = existsb (untracked_file E) glob).
Proof. apply convert_loop_up_to_date. Qed.

Lemma up_to_date_run_writes_nothing_witness :
  files (asked Samples.published_world ["weather.json"] false)
  = files Samples.published_world
  /\ (exists evs,
        log (asked Samples.published_world ["weather.json"] false)
        = log Samples.published_world ++ evs
        /\ existsb is_write evs = false)
  /\ (forall b, Ok false = Ok b ->
        b = existsb (untracked_file (Reference.engine [["weather.json"]]))
              [Samples.weather]).
Proof.
  apply (up_to_date_run_writes_nothing (Reference.engine [["weather.json"]])
           [Samples.weather] Samples.published_world (Ok false)
           (asked Samples.published_world ["weather.json"] false)).
  - vm_compute. reflexivity.
  - vm_compute. reflexivity.
Defined.

(** After a run that returned, every document shows no difference with its
    file, when the files of the source files are distinct. *)
Lemma run_settles (E : env) (ps : list source_file) acc (w : world) b w1 :
  NoDup (map out_file_of ps) ->
  forallb (document_wf E) ps = true ->
  convert_loop E ps acc w = (Ok b, w1) ->
  forallb (up_to_date E w1) ps = true.
Proof.
  revert acc w. induction ps as [|p ps IH]; intros acc w; simpl; [done |].
  intros Hnd Hwf. apply NoDup_cons in Hnd as [Hfresh Hnd].
  apply andb_true_iff in Hwf as [Hwfp Hwfs].
  unfold bind. destruct (convert_file E p w) as [[flag | e] w0] eqn:Hp;
    [| done].
  intros Hloop. rewrite (IH _ _ Hnd Hwfs Hloop), andb_true_r.
  rewrite (up_to_date_lookup E w0 w1).
  - rewrite convert_file_document in Hp.
    unfold up_to_date, document_wf in *.
    destruct (document_of E p) as [doc |]; [| done].
    destruct (out_file_of p) as [out_file |]; [| done].
    destruct (publish_cases E out_file doc w)
      as [(_ & Heq) | [(Hd & stdout & _ & Heq) | (_ & _ & Heq)]];
      rewrite Heq in Hp; [| | done]; injection Hp as _ <-.
    + unfold current_spec, written. simpl. rewrite lookup_insert_eq.
      by apply no_diff_refl.
    + done.
  - intros out_file Hout.
    apply (convert_loop_frame E ps (acc || flag) w0 (Ok b)); [| done].
    intros q Hq Hqout. apply Hfresh. rewrite Hout, <- Hqout.
    apply list_elem_of_In, in_map. done.
Qed.

(** X16.  A second run over the same source files, from the destination a
    first run that returned has left, writes nothing more, and returns
    [True] exactly when one of the files is untracked.  The destinations of
    the source files are taken to be distinct and the keys of every document
    to be distinct. *)
Theorem second_run_writes_nothing
    (E : env) (glob : list source_file) (w : world) (b : bool) (w1 : world)
    (r : result bool) (w2 : world) :
  NoDup (map out_file_of glob) ->
  forallb (document_wf E) glob = true ->
  convert_data_product_definitions E glob w = (Ok b, w1) ->
  convert_data_product_definitions E glob w1 = (r, w2) ->
  files w2 = files w1
  /\ (exists evs, log w2 = log w1 ++ evs /\ existsb is_write evs = false)
  /\ (forall b2, r = Ok b2 -> b2 = existsb (untracked_file E) glob).
Proof.
  intros Hnd Hwf Hfirst. apply convert_loop_up_to_date.
  by apply (run_settles E glob false w b).
Qed.

Lemma second_run_writes_nothing_witness :
  files (snd MoreSamples.again) = files MoreSamples.both_exported
  /\ (exists evs,
        log (snd MoreSamples.again) = log MoreSamples.both_exported ++ evs
        /\ existsb is_write evs = false)
  /\ (forall b2, fst MoreSamples.again = Ok b2 ->
        b2 = existsb (untracked_file (Reference.engine []))
               [Samples.orders_create; Samples.weather]).
Proof.
  apply (second_run_writes_nothing (Reference.engine [])
           [Samples.orders_create; Samples.weather] Samples.empty_world
           true MoreSamples.both_exported
           (fst MoreSamples.again) (snd MoreSamples.again)).
  - apply (bool_decide_unpack _). vm_compute. exact I.
  - vm_compute. reflexivity.
  - vm_compute. reflexivity.
  - vm_compute. reflexivity.
Defined.

End MoreProperties.

(** ** The headers of the exported document *)

Section HeaderProperties.
Import PyStr Json Converter Runs.

Lemma strip_entries_lookup items items' path entry :
  strip_entries items = Ok items' ->
  dict_get path items = Some entry ->
  exists entry', dict_get path items' = Some entry'
                 /\ strip_entry entry = Ok entry'.
Proof.
  revert items'. induction items as [|[k data] items IH]; intros items';
    simpl; [done |].
  destruct (strip_entry data) as [data' |] eqn:Hd; simpl; [| done].
  destruct (strip_entries items) as [rest |]; simpl; [| done].
  intros [= <-]. simpl. destruct (String.eqb path k).
  - intros [= <-]. eauto.
  - by apply IH.
Qed.

(** The loop of lines 93-95 leaves the parameters of every operation as
    the engine listed them. *)
Lemma exported_parameters (E : env) definition top items path parameters :
  app_openapi E (make_app definition) = JDict top ->
  dict_get "paths" top = Some (JDict items) ->
  NoDup (map fst items) ->
  (forall p data, In (p, data) items -> exists raw, operation_id data = Ok raw) ->
  operation_parameters (JDict top) path = Ok parameters ->
  exists doc,
    export_openapi_spec E definition = Ok doc
    /\ operation_parameters doc path = Ok parameters.
Proof.
  intros Hdoc Hpaths Hnd Hids Hparams.
  destruct (strip_entries_total items Hids) as (items' & Hstrip & _).
  exists (JDict (dict_set "paths" (JDict items') top)). split.
  - unfold export_openapi_spec. rewrite Hdoc. simpl. rewrite Hpaths. simpl.
    rewrite (strip_loop_entries items [] top); [| done | done].
    simpl. by rewrite Hstrip.
  - unfold operation_parameters in *. simpl in *.
    rewrite Hpaths in Hparams. rewrite dict_get_set_eq. simpl in *.
    destruct (dict_get path items) as [entry |] eqn:Hentry; [| done].
    destruct (strip_entries_lookup _ _ _ _ Hstrip Hentry)
      as (entry' & -> & Hse).
    simpl in *.
    destruct (strip_entry_frame _ _ Hse) as (_ & post & post' & Hp & -> & Hx).
    rewrite Hp in Hparams. simpl in *.
    destruct post as [| | | | | xs]; try done.
    destruct post' as [| | | | | ys]; try done.
    destruct Hx as [_ Hx]. simpl in *. by rewrite Hx.
Qed.

(** The three declarations written out. *)
Lemma request_headers_explicit (definition : DataProductDefinition) :
  request_headers definition
  = [ {| param_name := "x_consent_token";
         param_annotation :=
           if requires_consent definition then Ann_str else Ann_Optional_str;
         param_default :=
           if requires_consent definition then Ellipsis else DefaultNone;
         param_description :=
           if requires_consent definition
           then "Consent token" else "Optional consent token" |};
      {| param_name := "authorization";
         param_annotation :=
           if requires_authorization definition
           then Ann_str else Ann_Optional_str;
         param_default :=
           if requires_authorization definition
           then Ellipsis else DefaultNone;
         param_description :=
           "The login token. Value should be " +:+ dquote +:+ "Bearer [token]"
           +:+ dquote |};
      {| param_name := "x_authorization_provider";
         param_annotation := Ann_Optional_str;
         param_default := DefaultNone;
         param_description :=
           "The bare domain of the system that provided the token." |} ].
Proof.
  unfold request_headers.
  by destruct (requires_authorization definition),
    (requires_consent definition).
Qed.

(** The operation of the reference engine under the keys the converter and
    the statements read. *)
Lemma reference_operation_id (r : route) :
  subscript (Reference.operation r) "operationId"
  = Ok (JStr (Reference.generate_unique_id r)).
Proof.
  unfold Reference.operation, Reference.opt_field.
  destruct (route_sum r) as [a |]; [destruct (truthy a) |];
    (destruct (route_desc r) as [b |]; [destruct (truthy b) |]); reflexivity.
Qed.

Lemma reference_operation_parameters (r : route) :
  subscript (Reference.operation r) "parameters"
  = Ok (JList (map Reference.parameter (header_params r))).
Proof.
  unfold Reference.operation, Reference.opt_field.
  destruct (route_sum r) as [a |]; [destruct (truthy a) |];
    (destruct (route_desc r) as [b |]; [destruct (truthy b) |]); reflexivity.
Qed.

(** C7.  The operation of the exported document declares exactly three
    header parameters, in the order consent token, authorization,
    authorization provider, and the two flags of the definition decide the
    first two.  For every engine that lists the parameters the endpoint
    declares, the exported document lists, at [/name], the consent token as
    a required [str] described as "Consent token" when [requires_consent]
    is set and as an [Optional[str]] with default [None] described as
    "Optional consent token" otherwise, the authorization as a required
    [str] when [requires_authorization] is set and as an [Optional[str]]
    with default [None] otherwise, and the authorization provider as an
    [Optional[str]] with default [None].  In the document of the reference
    engine the three are the headers [x-consent-token], [authorization] and
    [x-authorization-provider] of type string without a default, and
    [required] is the flag for the first two and false for the third. *)
Theorem exported_headers_follow_flags (definition : DataProductDefinition) :
  let path := "/" +:+ fstr (name definition) in
  let consent :=
    {| param_name := "x_consent_token";
       param_annotation :=
         if requires_consent definition then Ann_str else Ann_Optional_str;
       param_default :=
         if requires_consent definition then Ellipsis else DefaultNone;
       param_description :=
         if requires_consent definition
         then "Consent token" else "Optional consent token" |} in
  let authorization :=
    {| param_name := "authorization";
       param_annotation :=
         if requires_authorization definition
         then Ann_str else Ann_Optional_str;
       param_default :=
         if requires_authorization definition then Ellipsis else DefaultNone;
       param_description :=
         "The login token. Value should be " +:+ dquote +:+ "Bearer [token]"
         +:+ dquote |} in
  let provider :=
    {| param_name := "x_authorization_provider";
       param_annotation := Ann_Optional_str;
       param_default := DefaultNone;
       param_description :=
         "The bare domain of the system that provided the token." |} in
  (forall (E : env) (render : header_param -> json)
          (top items : list (string * json)),
     app_openapi E (make_app definition) = JDict top ->
     dict_get "paths" top = Some (JDict items) ->
     NoDup (map fst items) ->
     (forall p data, In (p, data) items ->
                     exists raw, operation_id data = Ok raw) ->
     (forall r, In r (routes (make_app definition)) ->
        operation_parameters (JDict top) (route_path r)
        = Ok (JList (map render (header_params r)))) ->
     exists doc,
       export_openapi_spec E definition = Ok doc
       /\ operation_parameters doc path
          = Ok (JList [render consent; render authorization; render provider]))
  /\ (forall tracked,
        exists doc items,
          export_openapi_spec (Reference.engine tracked) definition = Ok doc
          /\ operation_parameters doc path = Ok (JList items)
          /\ map header_view items
             = [ (Ok (JStr "x-consent-token"), Ok (JStr "header"),
                  Ok (JBool (requires_consent definition)),
                  Ok (JStr (if requires_consent definition
                            then "Consent token"
                            else "Optional consent token")),
                  Ok (JStr "string"), Raise (KeyError "default"));
                 (Ok (JStr "authorization"), Ok (JStr "header"),
                  Ok (JBool (requires_authorization definition)),
                  Ok (JStr ("The login token. Value should be " +:+ dquote
                            +:+ "Bearer [token]" +:+ dquote)),
                  Ok (JStr "string"), Raise (KeyError "default"));
                 (Ok (JStr "x-authorization-provider"), Ok (JStr "header"),
                  Ok (JBool false),
                  Ok (JStr "The bare domain of the system that provided the token."),
                  Ok (JStr "string"), Raise (KeyError "default")) ]).
Proof.
  intros path consent authorization provider.
  assert (forall (E : env) render top items,
            app_openapi E (make_app definition) = JDict top ->
            dict_get "paths" top = Some (JDict items) ->
            NoDup (map fst items) ->
            (forall p data, In (p, data) items ->
                            exists raw, operation_id data = Ok raw) ->
            (forall r, In r (routes (make_app definition)) ->
               operation_parameters (JDict top) (route_path r)
               = Ok (JList (map render (header_params r)))) ->
            exists doc,
              export_openapi_spec E definition = Ok doc
              /\ operation_parameters doc path
                 = Ok (JList [render consent; render authorization;
                              render provider])) as Hany.
  { intros E render top items Hdoc Hpaths Hnd Hids Hlists.
    apply (exported_parameters E definition top items); try done.
    pose proof (Hlists _ (or_introl eq_refl)) as Hl. simpl in Hl.
    by rewrite request_headers_explicit in Hl. }
  split; [exact Hany |].
  intros tracked.
  destruct (Hany (Reference.engine tracked) Reference.parameter
              [ ("openapi", JStr "3.0.2");
                ("info",
                 JDict ([ ("title", JStr (summary definition)) ]
                        ++ Reference.opt_field "description"
                             (description definition)
                        ++ [ ("version", JStr "1.0.0") ]));
                ("paths",
                 JDict [ (path,
                          JDict [ ("post",
                                   Reference.operation
                                     {| route_path := path;
                                        route_sum := route_summary definition;
                                        route_desc :=
                                          route_description definition;
                                        response_model := response definition;
                                        endpoint_name := "request";
                                        body_model := request definition;
                                        header_params :=
                                          request_headers definition |}) ]) ]);
                ("components",
                 JDict [ ("schemas",
                          JDict (dict_set (model_name (response definition))
                                   (model_schema (response definition))
                                   (dict_set (model_name (request definition))
                                      (model_schema (request definition))
                                      []))) ]) ]
              [ (path,
                 JDict [ ("post",
                          Reference.operation
                            {| route_path := path;
                               route_sum := route_summary definition;
                               route_desc := route_description definition;
                               response_model := response definition;
                               endpoint_name := "request";
                               body_model := request definition;
                               header_params := request_headers definition
                            |}) ]) ])
    as (doc & Hexp & Hparams).
  - reflexivity.
  - reflexivity.
  - apply NoDup_singleton.
  - intros p data [[= <- <-] | []]. unfold operation_id.
    set (op := Reference.operation _).
    change (subscript (JDict [("post", op)]) "post") with (Ok op).
    cbn [rbind]. subst op. rewrite reference_operation_id. cbn [rbind]. eauto.
  - intros r [<- | []]. unfold operation_parameters.
    set (op := Reference.operation _).
    cbn [route_path subscript dict_get rbind String.eqb Ascii.eqb
         Bool.eqb andb].
    rewrite String.eqb_refl. cbn [rbind subscript dict_get String.eqb
                                     Ascii.eqb Bool.eqb andb].
    subst op. by rewrite reference_operation_parameters.
  - exists doc. eexists. split; [exact Hexp |]. split; [exact Hparams |].
    subst consent authorization provider.
    destruct (requires_consent definition),
      (requires_authorization definition); reflexivity.
Qed.

Lemma exported_headers_follow_flags_witness :
  exists doc items,
    export_openapi_spec (Reference.engine []) Samples.weather_definition
    = Ok doc
    /\ operation_parameters doc "/weather" = Ok (JList items)
    /\ map (fun item => (subscript item "name", subscript item "required"))
         items
       = [ (Ok (JStr "x-consent-token"), Ok (JBool true));
           (Ok (JStr "authorization"), Ok (JBool false));
           (Ok (JStr "x-authorization-provider"), Ok (JBool false)) ].
Proof.
  destruct (exported_headers_follow_flags Samples.weather_definition)
    as (Hany & _).
  destruct (Hany (Reference.engine []) Reference.parameter
              Samples.weather_top Samples.weather_paths)
    as (doc & Hexp & Hparams).
  - reflexivity.
  - reflexivity.
  - apply (bool_decide_unpack _). vm_compute. exact I.
  - intros p data [[= <- <-] | []]. eexists. vm_compute. reflexivity.
  - intros r [<- | []]. vm_compute. reflexivity.
  - exists doc. eexists. split; [exact Hexp |]. split; [exact Hparams |].
    vm_compute. reflexivity.
Defined.

End HeaderProperties.
